(** * Product catalog backend (app.js): shallow embedding and properties

    The program is an Express application with three routes over a
    PostgreSQL table [produtos] and the Vercel Blob store:

      GET    /produtos        list
      POST   /produtos        create (two base64 uploads, then an INSERT)
      DELETE /produtos/:id    delete (row first, blobs best effort)

    JavaScript strings are modelled as [string] (one [ascii] per code unit,
    code units 0..255), numbers that the program only uses as integers as
    [JsNum], exceptions as the [Throw] outcome of a state-and-error monad,
    and the outside world (clock, random source, blob store, database
    driver) as an [Env] of oracles consulted at a running tick. *)

From Stdlib Require Import ZArith NArith Lia List Bool Ascii String DecimalString.
From Stdlib Require Import DecimalPos.
From Stdlib Require Import Sorting.Sorted Sorting.Permutation.
Import ListNotations.

Open Scope string_scope.
Open Scope Z_scope.

(* ------------------------------------------------------------------ *)
(** ** JavaScript strings *)

Module JsString.

(** [s.startsWith(p)] *)
Definition startsWith (p s : string) : bool := String.prefix p s.

(** [s.split(sep)] for a non-empty separator: the pieces between successive
    occurrences of [sep], found left to right, an occurrence being consumed
    whole once it is matched.  [skip] counts the code units of a matched
    separator still to be passed over, [cur] is the piece being built. *)
Fixpoint split_from (sep : string) (skip : nat) (cur : string) (s : string)
  : list string :=
  match s with
  | EmptyString => [cur]
  | String c s' =>
      match skip with
      | S k => split_from sep k cur s'
      | O =>
          if String.prefix sep s
          then cur :: split_from sep (Nat.pred (String.length sep)) "" s'
          else split_from sep 0 (cur ++ String c "") s'
      end
  end.

Definition split (sep s : string) : list string := split_from sep 0 "" s.

(** Number of positions of [s] at which [sep] occurs. *)
Fixpoint occurrences (sep s : string) : nat :=
  match s with
  | EmptyString => 0
  | String _ s' =>
      ((if String.prefix sep s then 1 else 0) + occurrences sep s')%nat
  end.

(** Membership of a code unit in a string. *)
Fixpoint mem (c : ascii) (s : string) : bool :=
  match s with
  | EmptyString => false
  | String d s' => Ascii.eqb c d || mem c s'
  end.

(** [s.substring(a, b)] for [a <= b]. *)
Definition substring (a b : nat) (s : string) : string :=
  String.substring a (b - a) s.

End JsString.

(* ------------------------------------------------------------------ *)
(** ** JavaScript values and numbers *)

(** The numbers this program handles as integers: the result of
    [parseInt] and of [Date.now()].  A finite value is the integer a
    double holds (-0 is identified with 0). *)
Inductive JsNum : Type :=
| JNaN
| JInf (negative : bool)
| JInt (z : Z).

(** A value of the JSON request body, or a value derived from one.  A
    fractional number behaves in this program as any non-zero [JInt]
    (truthy, not a string); objects and arrays are opaque. *)
Inductive JsVal : Type :=
| VUndefined
| VNull
| VBool (b : bool)
| VNum (n : JsNum)
| VStr (s : string)
| VObj.

(** ToBoolean: the values for which [!v] is false. *)
Definition truthy (v : JsVal) : bool :=
  match v with
  | VUndefined | VNull => false
  | VBool b => b
  | VNum JNaN => false
  | VNum (JInf _) => true
  | VNum (JInt z) => negb (z =? 0)
  | VStr s => negb (String.eqb s "")
  | VObj => true
  end.

Inductive JsError : Type :=
| Error (message : string)
| TypeError (message : string).

Definition message (e : JsError) : string :=
  match e with Error m | TypeError m => m end.

Module Number.

Definition two53 : Z := 2 ^ 53.

(** The double nearest to a non-negative integer (ties to even), as
    [parseInt] yields it: exact up to 53 significant bits, rounded above,
    infinite from 2^1024 on. *)
Definition ofNat (m : Z) : JsNum :=
  let k := Z.log2 m + 1 in
  if k <=? 53 then JInt m
  else
    let sh := k - 53 in
    let q := Z.shiftr m sh in
    let r := m mod 2 ^ sh in
    let half := 2 ^ (sh - 1) in
    let q' := if (half <? r) || ((r =? half) && Z.odd q) then q + 1 else q in
    let v := Z.shiftl q' sh in
    if 2 ^ 1024 <=? v then JInf false else JInt v.

Definition neg (n : JsNum) : JsNum :=
  match n with
  | JNaN => JNaN
  | JInf b => JInf (negb b)
  | JInt z => JInt (- z)
  end.

(** Number::toString in radix 10, for the integers a double holds
    exactly: all the decimal digits of the integer.  This is what
    JavaScript prints below 2^53 in magnitude, which covers the clock
    and every id the handlers can name exactly; from 2^53 on JavaScript
    prints the shortest digits that identify the double, padded with
    zeros, and no statement below relies on the text printed there. *)
Definition toString (n : JsNum) : string :=
  match n with
  | JNaN => "NaN"
  | JInf false => "Infinity"
  | JInf true => "-Infinity"
  | JInt z => NilZero.string_of_int (Z.to_int z)
  end.

(** One digit of radix 36: 0-9 then a-z. *)
Definition digit36 (d : N) : ascii :=
  if (d <? 10)%N then ascii_of_N (48 + d) else ascii_of_N (87 + d).

Fixpoint digits36 (ds : list N) : string :=
  match ds with
  | [] => ""
  | d :: r => String (digit36 d) (digits36 r)
  end.

(** [x.toString(36)] for a double [0 <= x < 1] given by the digits of its
    radix-36 expansion as printed: "0" for zero, "0." and the fraction
    digits otherwise (0.5 is the single digit 18, printed "0.i"). *)
Definition toString36 (frac : list N) : string :=
  match frac with
  | [] => "0"
  | _ => "0." ++ digits36 frac
  end.

End Number.

(* ------------------------------------------------------------------ *)
(** ** parseInt (ECMAScript 19.2.5, radix argument absent) *)

Module ParseInt.

(** StrWhiteSpaceChar among the code units 0..255. *)
Definition isWhiteSpace (c : ascii) : bool :=
  let n := N_of_ascii c in
  ((9 <=? n) && (n <=? 13) || (n =? 32) || (n =? 160))%N.

Fixpoint trimStart (s : string) : string :=
  match s with
  | EmptyString => EmptyString
  | String c s' => if isWhiteSpace c then trimStart s' else s
  end.

(** Value of a code unit as a digit: 0-9, then a-z or A-Z for 10..35. *)
Definition digitValue (c : ascii) : option Z :=
  let n := Z.of_N (N_of_ascii c) in
  if (48 <=? n) && (n <=? 57) then Some (n - 48)
  else if (97 <=? n) && (n <=? 122) then Some (n - 87)
  else if (65 <=? n) && (n <=? 90) then Some (n - 55)
  else None.

Definition radixDigit (R : Z) (c : ascii) : option Z :=
  match digitValue c with
  | Some v => if v <? R then Some v else None
  | None => None
  end.

(** The digits of the longest prefix of [s] made of radix-[R] digits. *)
Fixpoint digitsPrefix (R : Z) (s : string) : list Z :=
  match s with
  | EmptyString => []
  | String c s' =>
      match radixDigit R c with
      | Some v => v :: digitsPrefix R s'
      | None => []
      end
  end.

Definition valueOf (R : Z) (ds : list Z) : Z :=
  fold_left (fun acc d => acc * R + d) ds 0.

Definition hexPrefixed (s : string) : bool :=
  JsString.startsWith "0x" s || JsString.startsWith "0X" s.

Definition dropSign (s : string) : bool * string :=
  match s with
  | String "-" r => (true, r)
  | String "+" r => (false, r)
  | _ => (false, s)
  end.

Definition parseInt (input : string) : JsNum :=
  let '(negative, s) := dropSign (trimStart input) in
  let '(R, s) :=
    if hexPrefixed s then (16, JsString.substring 2 (String.length s) s)
    else (10, s) in
  match digitsPrefix R s with
  | [] => JNaN
  | ds =>
      let number := Number.ofNat (valueOf R ds) in
      if negative then Number.neg number else number
  end.

End ParseInt.

(* ------------------------------------------------------------------ *)
(** ** Buffer: base64 *)

Module Buffer.

(** Value of a code unit in the base64 alphabet; [Buffer.from] also takes
    the URL-safe [-] and [_]. *)
Definition unbase64 (c : ascii) : option N :=
  let n := N_of_ascii c in
  (if (65 <=? n) && (n <=? 90) then Some (n - 65)
   else if (97 <=? n) && (n <=? 122) then Some (n - 71)
   else if (48 <=? n) && (n <=? 57) then Some (n + 4)
   else if (n =? 43) || (n =? 45) then Some 62
   else if (n =? 47) || (n =? 95) then Some 63
   else None)%N.

(** The 6-bit values of the legal code units up to the first [=]; any
    other code unit (white space, punctuation) is passed over. *)
Fixpoint sextets (s : string) : list N :=
  match s with
  | EmptyString => []
  | String c s' =>
      if Ascii.eqb c "=" then []
      else match unbase64 c with
           | Some v => v :: sextets s'
           | None => sextets s'
           end
  end.

(** The bytes a group of sextets holds; each is stored into an 8-bit
    slot.  A trailing group of two or three sextets gives one or two
    bytes, a single trailing sextet none. *)
Definition byte1 (hi lo : N) : N :=
  N.land (N.lor (N.shiftl (N.land hi 63) 2) (N.shiftr (N.land lo 48) 4)) 255.
Definition byte2 (hi lo : N) : N :=
  N.land (N.lor (N.shiftl (N.land hi 15) 4) (N.shiftr (N.land lo 60) 2)) 255.
Definition byte3 (hi lo : N) : N :=
  N.land (N.lor (N.shiftl (N.land hi 3) 6) (N.land lo 63)) 255.

Fixpoint pack (l : list N) : list N :=
  match l with
  | a :: b :: c :: d :: r => byte1 a b :: byte2 b c :: byte3 c d :: pack r
  | [a; b; c] => [byte1 a b; byte2 b c]
  | [a; b] => [byte1 a b]
  | _ => []
  end.

(** [Buffer.from(s, 'base64')] *)
Definition from_base64 (s : string) : list N := pack (sextets s).

Definition base64Char (v : N) : ascii :=
  (if v <? 26 then ascii_of_N (v + 65)
   else if v <? 52 then ascii_of_N (v + 71)
   else if v <? 62 then ascii_of_N (v - 4)
   else if v =? 62 then "+"%char
   else "/"%char)%N.

Definition sextet1 (a : N) : N := N.shiftr a 2.
Definition sextet2 (a b : N) : N :=
  N.lor (N.shiftl (N.land a 3) 4) (N.shiftr b 4).
Definition sextet3 (b c : N) : N :=
  N.lor (N.shiftl (N.land b 15) 2) (N.shiftr c 6).
Definition sextet4 (c : N) : N := N.land c 63.

(** [buf.toString('base64')]: the standard alphabet, padded with [=]. *)
Fixpoint toString_base64 (l : list N) : string :=
  match l with
  | a :: b :: c :: r =>
      String (base64Char (sextet1 a))
        (String (base64Char (sextet2 a b))
           (String (base64Char (sextet3 b c))
              (String (base64Char (sextet4 c)) (toString_base64 r))))
  | [a; b] =>
      String (base64Char (sextet1 a))
        (String (base64Char (sextet2 a b))
           (String (base64Char (sextet3 b 0)) "="))
  | [a] =>
      String (base64Char (sextet1 a))
        (String (base64Char (sextet2 a 0)) "==")
  | [] => ""
  end.

Definition isByte (b : N) : Prop := (b < 256)%N.

End Buffer.

(* ------------------------------------------------------------------ *)
(** ** Property lookup on the extension table *)

Module ObjectLiteral.

(** What a property of an object literal of strings can hold: its own
    string, or what it inherits from [Object.prototype] (a built-in
    function, or the prototype object itself through [__proto__]). *)
Inductive PropValue : Type :=
| PString (s : string)
| PNativeFunction (name : string)
| PPrototype.

(** The properties every object literal inherits (V8). *)
Definition Object_prototype : list (string * PropValue) :=
  [ ("constructor", PNativeFunction "Object");
    ("__defineGetter__", PNativeFunction "__defineGetter__");
    ("__defineSetter__", PNativeFunction "__defineSetter__");
    ("hasOwnProperty", PNativeFunction "hasOwnProperty");
    ("__lookupGetter__", PNativeFunction "__lookupGetter__");
    ("__lookupSetter__", PNativeFunction "__lookupSetter__");
    ("isPrototypeOf", PNativeFunction "isPrototypeOf");
    ("propertyIsEnumerable", PNativeFunction "propertyIsEnumerable");
    ("toString", PNativeFunction "toString");
    ("valueOf", PNativeFunction "valueOf");
    ("__proto__", PPrototype);
    ("toLocaleString", PNativeFunction "toLocaleString") ].

Fixpoint assoc (key : string) (l : list (string * PropValue))
  : option PropValue :=
  match l with
  | [] => None
  | (k, v) :: r => if String.eqb key k then Some v else assoc key r
  end.

(** [obj[key]]: own properties first, then the prototype's; [None] is
    [undefined]. *)
Definition get (own : list (string * PropValue)) (key : string)
  : option PropValue :=
  match assoc key own with
  | Some v => Some v
  | None => assoc key Object_prototype
  end.

(** The property key an index expression denotes: ToString of it. *)
Definition propertyKey (k : option string) : string :=
  match k with
  | Some s => s
  | None => "undefined"
  end.

Definition truthy (v : PropValue) : bool :=
  match v with
  | PString s => negb (String.eqb s "")
  | _ => true
  end.

(** How a template literal renders the value. *)
Definition toString (v : PropValue) : string :=
  match v with
  | PString s => s
  | PNativeFunction name => "function " ++ name ++ "() { [native code] }"
  | PPrototype => "[object Object]"
  end.

End ObjectLiteral.

(* ------------------------------------------------------------------ *)
(** ** The world: table, trace of calls, oracles *)

(** A row of [produtos]; a text column may be NULL. *)
Record Row : Type := mkRow {
  id : Z;
  nome : option string;
  imagem_url : option string;
  pdf_url : option string;
  youtube_link : option string
}.

Inductive Query : Type :=
| SelectAll
| Insert (nome imagem_url pdf_url youtube_link : JsVal)
| SelectById (id : JsNum)
| DeleteById (id : JsNum).

(** The calls the handlers make on the outside, in the order made. *)
Inductive Event : Type :=
| EPut (pathname : string) (body : list N) (contentType : option string)
| EDel (url : string)
| EQuery (q : Query)
| EConsoleError (label : string) (err : JsError)
| EConsoleWarn (url : string) (msg : string).

Record World : Type := mkWorld {
  rows : list Row;
  next_id : Z;
  tick : nat;
  trace : list Event
}.

Inductive Outcome (A : Type) : Type :=
| Ok (a : A)
| Throw (e : JsError).
Arguments Ok {A} a.
Arguments Throw {A} e.

(** What the outside answers, at the tick of the call: the clock, the
    random source (radix-36 fraction digits of the draw), the blob store
    ([put] resolves to the public URL or rejects, [del] resolves or
    rejects), the database (a query may reject) and the text a non-string
    query parameter is stored as ([None]: NULL). *)
Record Env : Type := mkEnv {
  Date_now : nat -> Z;
  Math_random : nat -> list N;
  put_result : nat -> string -> list N -> option string -> Outcome string;
  del_result : nat -> string -> Outcome unit;
  query_fault : nat -> Query -> option JsError;
  param_text : JsVal -> option string
}.

(** State and exceptions. *)
Definition M (A : Type) : Type := World -> Outcome A * World.

Definition ret {A} (a : A) : M A := fun w => (Ok a, w).
Definition throw {A} (e : JsError) : M A := fun w => (Throw e, w).
Definition bind {A B} (m : M A) (k : A -> M B) : M B :=
  fun w =>
    match m w with
    | (Ok a, w') => k a w'
    | (Throw e, w') => (Throw e, w')
    end.
Definition try_catch {A} (m : M A) (handler : JsError -> M A) : M A :=
  fun w =>
    match m w with
    | (Ok a, w') => (Ok a, w')
    | (Throw e, w') => handler e w'
    end.

Notation "x <- m ;; k" := (bind m (fun x => k))
  (at level 61, m at next level, right associativity).
Notation "m ;;; k" := (bind m (fun _ => k))
  (at level 61, right associativity).

(** One call on the outside: the tick it happens at, and the next tick. *)
Definition call (ev : list Event) : M nat :=
  fun w =>
    (Ok (tick w),
     mkWorld (rows w) (next_id w) (S (tick w)) (trace w ++ ev)).

Definition lift {A} (o : Outcome A) : M A := fun w => (o, w).

Definition console_error (label : string) (err : JsError) : M unit :=
  fun w =>
    (Ok tt,
     mkWorld (rows w) (next_id w) (tick w)
       (trace w ++ [EConsoleError label err])).

Definition console_warn (url msg : string) : M unit :=
  fun w =>
    (Ok tt,
     mkWorld (rows w) (next_id w) (tick w)
       (trace w ++ [EConsoleWarn url msg])).

(* ------------------------------------------------------------------ *)
(** ** The repository behind [db.query] *)

Module Db.

Record QueryResult : Type := mkResult {
  result_rows : list Row;
  rowCount : nat
}.

(** [ORDER BY id DESC] *)
Fixpoint insert_desc (r : Row) (l : list Row) : list Row :=
  match l with
  | [] => [r]
  | x :: l' => if id x <=? id r then r :: l else x :: insert_desc r l'
  end.

Definition order_by_id_desc (l : list Row) : list Row :=
  fold_right insert_desc [] l.

(** [WHERE id = $1]: only a finite number equals an id. *)
Definition id_is (i : JsNum) (r : Row) : bool :=
  match i with
  | JInt z => id r =? z
  | _ => false
  end.

(** The text stored for a query parameter: a string as it is, NULL for
    [null] and [undefined], the driver's rendering for anything else. *)
Definition sql_text (env : Env) (v : JsVal) : option string :=
  match v with
  | VStr s => Some s
  | VUndefined | VNull => None
  | _ => param_text env v
  end.

(** Modelled from the spec: the Catalog Repository, which "persists,
    retrieves and deletes product rows identified by numeric id", assigns
    the id on creation and reads "all rows ordered by id descending"; the
    module [./conexao] that exports [db] is not among the sources.  The
    four statements are those of app.js. *)
Definition execute (env : Env) (q : Query) (table : list Row) (next : Z)
  : QueryResult * list Row * Z :=
  match q with
  | SelectAll =>
      let found := order_by_id_desc table in
      (mkResult found (List.length found), table, next)
  | Insert n i p y =>
      let r := mkRow next (sql_text env n) (sql_text env i)
                 (sql_text env p) (sql_text env y) in
      (mkResult [r] 1, (table ++ [r])%list, next + 1)
  | SelectById i =>
      let found := filter (id_is i) table in
      (mkResult found (List.length found), table, next)
  | DeleteById i =>
      let gone := filter (id_is i) table in
      (mkResult [] (List.length gone),
       filter (fun r => negb (id_is i r)) table, next)
  end.

(** [await db.query(text, values)]: the call is traced, then rejects or
    runs. *)
Definition query (env : Env) (q : Query) : M QueryResult :=
  t <- call [EQuery q] ;;
  match query_fault env t q with
  | Some e => throw e
  | None =>
      fun w =>
        let '(res, table, next) := execute env q (rows w) (next_id w) in
        (Ok res, mkWorld table next (tick w) (trace w))
  end.

End Db.

(* ------------------------------------------------------------------ *)
(** ** uploadBase64ToStorage (app.js 18-51) *)

Definition extensaoMapeada : list (string * ObjectLiteral.PropValue) :=
  [ ("image/png", ObjectLiteral.PString "png");
    ("image/jpeg", ObjectLiteral.PString "jpg");
    ("application/pdf", ObjectLiteral.PString "pdf");
    ("image/svg+xml", ObjectLiteral.PString "svg") ].

Definition InvalidFormat1 : JsError := Error "Formato de Base64 inválido.".
Definition InvalidFormat2 : JsError := Error "Base64 malformado.".

(** Lines 19-26: the two guards, giving [parts].  A truthy value that is
    not a string has no [startsWith] method. *)
Definition checkFormat (dataUrl : JsVal) : Outcome (list string) :=
  if negb (truthy dataUrl) then Throw InvalidFormat1
  else
    match dataUrl with
    | VStr s =>
        if negb (JsString.startsWith "data:" s) then Throw InvalidFormat1
        else
          let parts := JsString.split ";base64," s in
          if negb (List.length parts =? 2)%nat then Throw InvalidFormat2
          else Ok parts
    | _ => Throw (TypeError "dataUrl.startsWith is not a function")
    end.

(** Line 27: [parts[0].split(':')[1]] *)
Definition mimeTypeOf (parts : list string) : option string :=
  nth_error (JsString.split ":" (nth 0 parts "")) 1.

(** Line 38: [extensaoMapeada[mimeType] || 'bin'] *)
Definition extensao (mimeType : option string) : ObjectLiteral.PropValue :=
  match ObjectLiteral.get extensaoMapeada (ObjectLiteral.propertyKey mimeType)
  with
  | Some v => if ObjectLiteral.truthy v then v else ObjectLiteral.PString "bin"
  | None => ObjectLiteral.PString "bin"
  end.

(** Line 41: [Math.random().toString(36).substring(2, 9)] *)
Definition token (draw : list N) : string :=
  JsString.substring 2 9 (Number.toString36 draw).

(** Line 41: the template literal. *)
Definition NomeArquivo (now : Z) (draw : list N)
  (ext : ObjectLiteral.PropValue) : string :=
  Number.toString (JInt now) ++ "-" ++ token draw ++ "."
  ++ ObjectLiteral.toString ext.

Definition uploadBase64ToStorage (env : Env) (dataUrl : JsVal) : M string :=
  parts <- lift (checkFormat dataUrl) ;;
  let mimeType := mimeTypeOf parts in
  let base64Data := nth 1 parts "" in
  let fileBuffer := Buffer.from_base64 base64Data in
  let ext := extensao mimeType in
  t_now <- call [] ;;
  t_rnd <- call [] ;;
  let name := NomeArquivo (Date_now env t_now) (Math_random env t_rnd) ext in
  t_put <- call [EPut name fileBuffer mimeType] ;;
  url <- lift (put_result env t_put name fileBuffer mimeType) ;;
  ret url.

(* ------------------------------------------------------------------ *)
(** ** The three routes *)

(** The external form of a product. *)
Record Produto : Type := mkProduto {
  p_id : Z;
  name : option string;
  image : option string;
  pdfDataUrl : option string;
  youtubeLink : option string
}.

Inductive Json : Type :=
| JProdutos (l : list Produto)
| JProduto (p : Produto)
| JError (error : string)
| JMessage (msg : string).

Record Response : Type := mkResponse {
  status : Z;
  json : Json
}.

Definition formatar (resultado : Row) : Produto :=
  mkProduto (id resultado) (nome resultado) (imagem_url resultado)
    (pdf_url resultado) (youtube_link resultado).

(** GET /produtos (app.js 55-74) *)
Definition get_produtos (env : Env) : M Response :=
  try_catch
    (resultados <- Db.query env SelectAll ;;
     let resultadosFormatados := map formatar (Db.result_rows resultados) in
     ret (mkResponse 200 (JProdutos resultadosFormatados)))
    (fun err =>
       console_error "Erro ao consultar o banco de dados:" err ;;;
       ret (mkResponse 500 (JError "Erro interno ao consultar o catálogo."))).

(** The JSON body of POST /produtos; an absent field is [VUndefined]. *)
Record CreateBody : Type := mkCreateBody {
  body_nome : JsVal;
  body_imagem : JsVal;
  body_pdfDataUrl : JsVal;
  body_youtubeLink : JsVal
}.

Definition MissingField : Response :=
  mkResponse 400
    (JError "Todos os campos (nome, imagem, pdf, link) são obrigatórios.").

Definition UploadFailed : Response :=
  mkResponse 500
    (JError "Erro ao cadastrar produto. Verifique o formato dos arquivos e a configuração do Vercel Blob.").

(** POST /produtos (app.js 79-117), for a request whose body was parsed:
    an object (or an array, whose four fields are all absent). *)
Definition post_produtos (env : Env) (body : CreateBody) : M Response :=
  let nome := body_nome body in
  let imagem := body_imagem body in
  let pdfDataUrl := body_pdfDataUrl body in
  let youtubeLink := body_youtubeLink body in
  if negb (truthy nome) || negb (truthy imagem) || negb (truthy pdfDataUrl)
     || negb (truthy youtubeLink)
  then ret MissingField
  else
    try_catch
      (finalImageUrl <- uploadBase64ToStorage env imagem ;;
       finalPdfUrl <- uploadBase64ToStorage env pdfDataUrl ;;
       resultado <-
         Db.query env
           (Insert nome (VStr finalImageUrl) (VStr finalPdfUrl) youtubeLink) ;;
       match Db.result_rows resultado with
       | novoProduto :: _ =>
           ret (mkResponse 201 (JProduto (formatar novoProduto)))
       | [] => throw (TypeError "Cannot read properties of undefined")
       end)
      (fun err =>
         console_error "Erro no cadastro ou upload:" err ;;;
         ret UploadFailed).

(** POST /produtos on the request (app.js 77-117).  [req.body] is
    [undefined] when no parser produced a body; line 79 destructures it
    before the [try] of line 87, so the handler then throws and answers
    nothing itself. *)
Definition post_produtos_request (env : Env) (req_body : option CreateBody)
  : M Response :=
  match req_body with
  | None =>
      throw (TypeError
               "Cannot destructure property 'nome' of 'req.body' as it is undefined.")
  | Some body => post_produtos env body
  end.

(** Line 140: [url && url.startsWith('http')] on a column value. *)
Definition looksLikeUrl (url : option string) : bool :=
  match url with
  | Some u => negb (String.eqb u "") && JsString.startsWith "http" u
  | None => false
  end.

Definition urlsToDelete (imagem_url pdf_url : option string) : list string :=
  flat_map (fun url => match url with Some u => [u] | None => [] end)
    (filter looksLikeUrl [imagem_url; pdf_url]).

(** Lines 142-150: each [del] has its own try/catch. *)
Fixpoint delete_blobs (env : Env) (urls : list string) : M unit :=
  match urls with
  | [] => ret tt
  | url :: rest =>
      try_catch
        (t <- call [EDel url] ;;
         lift (del_result env t url))
        (fun fileErr => console_warn url (message fileErr)) ;;;
      delete_blobs env rest
  end.

Definition NotFound : Response :=
  mkResponse 404 (JError "Produto não encontrado.").

Definition Deleted (id_produto : JsNum) : Response :=
  mkResponse 200
    (JMessage ("Produto " ++ Number.toString id_produto
               ++ " excluído com sucesso.")).

(** Lines 124-157, for the parsed id. *)
Definition delete_by_id (env : Env) (id_produto : JsNum) : M Response :=
  try_catch
    (resultado <- Db.query env (SelectById id_produto) ;;
     if (Db.rowCount resultado =? 0)%nat then ret NotFound
     else
       match Db.result_rows resultado with
       | r :: _ =>
           Db.query env (DeleteById id_produto) ;;;
           delete_blobs env (urlsToDelete (imagem_url r) (pdf_url r)) ;;;
           ret (Deleted id_produto)
       | [] => throw (TypeError "Cannot destructure property of undefined")
       end)
    (fun err =>
       console_error "Erro na exclusão do produto:" err ;;;
       ret (mkResponse 500 (JError "Erro interno ao excluir produto."))).

(** DELETE /produtos/:id (app.js 120-158) *)
Definition delete_produtos (env : Env) (param_id : string) : M Response :=
  let id_produto := ParseInt.parseInt param_id in
  delete_by_id env id_produto.

(* ------------------------------------------------------------------ *)
(** ** Vocabulary of the properties *)

(** The calls of each kind in a trace. *)
Definition db_calls (tr : list Event) : list Query :=
  flat_map (fun ev => match ev with EQuery q => [q] | _ => [] end) tr.

Definition put_calls (tr : list Event) : list string :=
  flat_map (fun ev => match ev with EPut n _ _ => [n] | _ => [] end) tr.

Definition del_calls (tr : list Event) : list string :=
  flat_map (fun ev => match ev with EDel u => [u] | _ => [] end) tr.

(** The world after [console.error]. *)
Definition logged (label : string) (err : JsError) (w : World) : World :=
  mkWorld (rows w) (next_id w) (tick w)
    (trace w ++ [EConsoleError label err]).

(** The shape the decoder asks of a payload: the scheme prefix, and the
    delimiter exactly once. *)
Definition wellFormed (s : string) : Prop :=
  JsString.startsWith "data:" s = true
  /\ JsString.occurrences ";base64," s = 1%nat.

Definition InvalidFormat {A} (o : Outcome A) : Prop :=
  o = Throw InvalidFormat1 \/ o = Throw InvalidFormat2.

(** Rows in descending order of id. *)
Definition descending (l : list Row) : Prop :=
  StronglySorted (fun a b => id b <= id a) l.

(** The reading of an id parameter by its leading decimal digits: white
    space, an optional sign, then the longest run of digits 0-9; whatever
    follows is ignored. *)
Module LeadingDecimal.

Definition decimalDigit (c : ascii) : option Z :=
  let n := Z.of_N (N_of_ascii c) in
  if (48 <=? n) && (n <=? 57) then Some (n - 48) else None.

Fixpoint digits (s : string) : list Z :=
  match s with
  | EmptyString => []
  | String c s' =>
      match decimalDigit c with
      | Some v => v :: digits s'
      | None => []
      end
  end.

Fixpoint value (acc : Z) (ds : list Z) : Z :=
  match ds with
  | [] => acc
  | d :: r => value (10 * acc + d) r
  end.

(** What is left after the white space and the sign. *)
Definition unsignedPart (param : string) : string :=
  snd (ParseInt.dropSign (ParseInt.trimStart param)).

Definition negative (param : string) : bool :=
  fst (ParseInt.dropSign (ParseInt.trimStart param)).

Definition read (param : string) : option Z :=
  match digits (unsignedPart param) with
  | [] => None
  | ds => Some (if negative param then - value 0 ds else value 0 ds)
  end.

End LeadingDecimal.

(** The table as the repository keeps it: ids pairwise distinct and
    below the id counter. *)
Definition consistent (w : World) : Prop :=
  NoDup (map id (rows w)) /\ Forall (fun r => id r < next_id w) (rows w).

(** The digits a decimal numeral writes. *)
Fixpoint uint_digits (d : Decimal.uint) : list Z :=
  match d with
  | Decimal.Nil => []
  | Decimal.D0 l => 0 :: uint_digits l
  | Decimal.D1 l => 1 :: uint_digits l
  | Decimal.D2 l => 2 :: uint_digits l
  | Decimal.D3 l => 3 :: uint_digits l
  | Decimal.D4 l => 4 :: uint_digits l
  | Decimal.D5 l => 5 :: uint_digits l
  | Decimal.D6 l => 6 :: uint_digits l
  | Decimal.D7 l => 7 :: uint_digits l
  | Decimal.D8 l => 8 :: uint_digits l
  | Decimal.D9 l => 9 :: uint_digits l
  end.

(** Strings made of decimal digits only, and of 0-9 and a-z only. *)
Fixpoint allDecimal (s : string) : bool :=
  match s with
  | EmptyString => true
  | String c s' =>
      match LeadingDecimal.decimalDigit c with
      | Some _ => allDecimal s'
      | None => false
      end
  end.

Definition lowerAlnum (c : ascii) : bool :=
  let n := N_of_ascii c in
  ((48 <=? n) && (n <=? 57) || (97 <=? n) && (n <=? 122))%N.

Fixpoint allLowerAlnum (s : string) : bool :=
  match s with
  | EmptyString => true
  | String c s' => lowerAlnum c && allLowerAlnum s'
  end.

(** An environment whose database rejects the queries made at the ticks
    [db_ok] refuses. *)
Definition with_database (base : Env) (db_ok : nat -> bool) : Env :=
  mkEnv (Date_now base) (Math_random base) (put_result base)
    (del_result base)
    (fun t _ => if db_ok t then None else Some (Error "connection refused"))
    (param_text base).

(** What the clean-up loop of the delete route leaves in the trace from
    tick [t] on: for each url its [del], followed by the warning when
    that [del] rejects. *)
Fixpoint cleanup_events (env : Env) (t : nat) (urls : list string)
  : list Event :=
  match urls with
  | [] => []
  | url :: rest =>
      EDel url
      :: (match del_result env t url with
          | Ok _ => []
          | Throw fileErr => [EConsoleWarn url (message fileErr)]
          end
          ++ cleanup_events env (S t) rest)%list
  end.

(** The answer of the delete route to an exception. *)
Definition InternalError : Response :=
  mkResponse 500 (JError "Erro interno ao excluir produto.").

(** Enumeration of the small numbers, to settle bit identities on bytes
    by evaluation. *)
Definition below (n : nat) : list N := map N.of_nat (seq 0 n).

Definition all_below (n : nat) (P : N -> bool) : bool := forallb P (below n).

(** A world and an environment to run the handlers in. *)
Module Sample.

Definition url_of (pathname : string) : string :=
  "https://store.example/" ++ pathname.

Definition env (put_ok del_ok : nat -> bool) : Env :=
  mkEnv (fun t => 1700000000000 + Z.of_nat t)
    (fun _ => [18; 3; 35; 0; 7; 21; 9; 30; 2]%N)
    (fun t pathname _ _ =>
       if put_ok t then Ok (url_of pathname) else Throw (Error "put failed"))
    (fun t _ => if del_ok t then Ok tt else Throw (Error "del failed"))
    (fun _ _ => None)
    (fun _ => None).

Definition row (i : Z) : Row :=
  mkRow i (Some "Widget") (Some (url_of "a.png")) (Some (url_of "a.pdf"))
    (Some "https://youtu.be/x").

Definition world : World := mkWorld [row 3; row 12; row 7] 13 0 [].

Definition always (b : bool) : nat -> bool := fun _ => b.

Definition body (imagem : string) : CreateBody :=
  mkCreateBody (VStr "Widget") (VStr imagem)
    (VStr "data:application/pdf;base64,JVBERi0=")
    (VStr "https://youtu.be/x").

End Sample.

(* ------------------------------------------------------------------ *)
(** ** Facts on strings *)

Section StringFacts.

Lemma prefix_app (p r : string) : String.prefix p (p ++ r) = true.
Proof.
  induction p as [|c p IH]; simpl.
  - destruct r; reflexivity.
  - destruct (ascii_dec c c) as [_|n]; [exact IH | contradiction].
Qed.

Lemma prefix_split (p s : string) :
  String.prefix p s = true -> exists r, s = p ++ r.
Proof.
  revert s; induction p as [|c p IH]; intros s H.
  - exists s; reflexivity.
  - destruct s as [|d s]; simpl in H; [discriminate|].
    destruct (ascii_dec c d) as [->|_]; [|discriminate].
    destruct (IH s H) as [r ->]. exists r; reflexivity.
Qed.

Lemma prefix_head (c d : ascii) (p s : string) :
  String.prefix (String c p) (String d s) = true -> c = d.
Proof.
  simpl. destruct (ascii_dec c d); [auto | discriminate].
Qed.

Lemma append_assoc (a b c : string) : (a ++ b) ++ c = a ++ (b ++ c).
Proof. induction a; simpl; congruence. Qed.

Lemma append_nil_r (a : string) : a ++ "" = a.
Proof. induction a; simpl; congruence. Qed.

Lemma length_append (a b : string) :
  String.length (a ++ b) = (String.length a + String.length b)%nat.
Proof. induction a; simpl; congruence. Qed.

(** A separator whose first code unit does not occur again in it cannot
    start inside a stretch of its own tail. *)
Lemma occurrences_skip (c : ascii) (tl t r : string) :
  (forall x, JsString.mem x t = true -> x <> c) ->
  JsString.occurrences (String c tl) (t ++ r)
  = JsString.occurrences (String c tl) r.
Proof.
  induction t as [|d t IH]; intros Hno; [reflexivity|].
  change (String d t ++ r) with (String d (t ++ r)).
  cbn [JsString.occurrences].
  rewrite IH.
  - destruct (String.prefix (String c tl) (String d (t ++ r))) eqn:E;
      [|reflexivity].
    apply prefix_head in E. exfalso. apply (Hno d); [|auto].
    simpl. rewrite Ascii.eqb_refl. reflexivity.
  - intros x Hx. apply Hno. simpl. rewrite Hx. apply orb_true_r.
Qed.

Lemma split_from_skip (sep t r cur : string) :
  JsString.split_from sep (String.length t) cur (t ++ r)
  = JsString.split_from sep 0 cur r.
Proof.
  induction t as [|d t IH]; simpl.
  - destruct r; reflexivity.
  - exact IH.
Qed.

Lemma mem_not_head (c : ascii) (tl : string) :
  JsString.mem c tl = false ->
  forall x, JsString.mem x tl = true -> x <> c.
Proof. intros H x Hx ->. congruence. Qed.

(** [split] cuts at every occurrence: one more piece than occurrences. *)
Lemma split_from_length (c : ascii) (tl : string) :
  JsString.mem c tl = false ->
  forall (n : nat) (s cur : string),
    (String.length s <= n)%nat ->
    List.length (JsString.split_from (String c tl) 0 cur s)
    = S (JsString.occurrences (String c tl) s).
Proof.
  intros Hc. induction n as [|n IH]; intros s cur Hn.
  - destruct s; [reflexivity | simpl in Hn; lia].
  - destruct s as [|d s]; [reflexivity|].
    cbn [JsString.split_from JsString.occurrences].
    destruct (String.prefix (String c tl) (String d s)) eqn:E.
    + destruct (prefix_split _ _ E) as [r Hr].
      simpl in Hr. injection Hr as -> ->.
      cbn [String.length Nat.pred List.length].
      rewrite split_from_skip.
      rewrite (occurrences_skip c tl tl r (mem_not_head c tl Hc)).
      rewrite IH; [reflexivity|].
      simpl in Hn. rewrite length_append in Hn. lia.
    + rewrite IH; [reflexivity | simpl in Hn; lia].
Qed.

Lemma split_length (c : ascii) (tl s : string) :
  JsString.mem c tl = false ->
  List.length (JsString.split (String c tl) s)
  = S (JsString.occurrences (String c tl) s).
Proof.
  intros Hc. unfold JsString.split.
  apply (split_from_length c tl Hc (String.length s)). lia.
Qed.

End StringFacts.

(* ------------------------------------------------------------------ *)
(** ** The format check of the decoder *)

Lemma delimiter_count (s : string) :
  List.length (JsString.split ";base64," s)
  = S (JsString.occurrences ";base64," s).
Proof. apply split_length. reflexivity. Qed.

Lemma checkFormat_string (s : string) :
  checkFormat (VStr s)
  = if JsString.startsWith "data:" s
    then if (JsString.occurrences ";base64," s =? 1)%nat
         then Ok (JsString.split ";base64," s)
         else Throw InvalidFormat2
    else Throw InvalidFormat1.
Proof.
  unfold checkFormat. cbn [truthy].
  destruct (JsString.startsWith "data:" s) eqn:Hp.
  - assert (Hne : String.eqb s "" = false).
    { destruct s; [discriminate Hp | reflexivity]. }
    rewrite Hne. cbn [negb]. rewrite delimiter_count.
    change (S (JsString.occurrences ";base64," s) =? 2)%nat
      with (JsString.occurrences ";base64," s =? 1)%nat.
    destruct (JsString.occurrences ";base64," s =? 1)%nat; reflexivity.
  - destruct (negb (String.eqb s "")); reflexivity.
Qed.

(** C5. The decoder rejects a string with one of its two format errors
    exactly when the string does not start with [data:] or does not hold
    the delimiter [;base64,] exactly once; a string of that shape passes
    the check and yields the pieces around the delimiter. *)
Theorem checkFormat_exact (s : string) :
  (InvalidFormat (checkFormat (VStr s)) <-> ~ wellFormed s)
  /\ (checkFormat (VStr s) = Ok (JsString.split ";base64," s)
      <-> wellFormed s).
Proof.
  rewrite checkFormat_string. unfold wellFormed, InvalidFormat.
  unfold InvalidFormat1, InvalidFormat2.
  destruct (JsString.startsWith "data:" s).
  - destruct (Nat.eqb_spec (JsString.occurrences ";base64," s) 1) as [E|E].
    + rewrite E. split; split.
      * intros [H|H]; discriminate H.
      * intros H. exfalso. apply H. split; reflexivity.
      * intros _. split; reflexivity.
      * reflexivity.
    + split; split.
      * intros _ [_ H]. contradiction.
      * intros _. right. reflexivity.
      * discriminate.
      * intros [_ H]. contradiction.
  - split; split.
    + intros _ [H _]. discriminate H.
    + intros _. left. reflexivity.
    + discriminate.
    + intros [H _]. discriminate H.
Qed.

(* ------------------------------------------------------------------ *)
(** ** The extension table and the object key *)

Lemma extensao_table :
  extensao (Some "image/png") = ObjectLiteral.PString "png"
  /\ extensao (Some "image/jpeg") = ObjectLiteral.PString "jpg"
  /\ extensao (Some "application/pdf") = ObjectLiteral.PString "pdf"
  /\ extensao (Some "image/svg+xml") = ObjectLiteral.PString "svg"
  /\ extensao (Some "") = ObjectLiteral.PString "bin"
  /\ extensao None = ObjectLiteral.PString "bin".
Proof. repeat split. Qed.

(** A type that is neither in the table nor the name of an inherited
    property falls back to [bin]. *)
Lemma extensao_fallback (mime : string) :
  ObjectLiteral.assoc mime extensaoMapeada = None ->
  ObjectLiteral.assoc mime ObjectLiteral.Object_prototype = None ->
  extensao (Some mime) = ObjectLiteral.PString "bin".
Proof.
  intros Hown Hproto. unfold extensao, ObjectLiteral.get.
  cbn [ObjectLiteral.propertyKey]. rewrite Hown, Hproto. reflexivity.
Qed.

(** C8. The payload [data:constructor;base64,AAAA] passes the format
    check with declared type [constructor], which is not in the table;
    the lookup finds the inherited [constructor] of the table object, so
    the extension is that function's text and not [bin]. *)
Theorem extensao_inherited_property :
  let dataUrl := "data:constructor;base64,AAAA" in
  let parts := JsString.split ";base64," dataUrl in
  checkFormat (VStr dataUrl) = Ok parts
  /\ mimeTypeOf parts = Some "constructor"
  /\ ObjectLiteral.assoc "constructor" extensaoMapeada = None
  /\ extensao (mimeTypeOf parts) = ObjectLiteral.PNativeFunction "Object"
  /\ ObjectLiteral.toString (extensao (mimeTypeOf parts))
     = "function Object() { [native code] }"
  /\ extensao (mimeTypeOf parts) <> ObjectLiteral.PString "bin".
Proof.
  cbv zeta. repeat split; try reflexivity. discriminate.
Qed.

(* ------------------------------------------------------------------ *)
(** ** The object key *)

Lemma digits36_length (l : list N) :
  String.length (Number.digits36 l) = List.length l.
Proof. induction l; simpl; congruence. Qed.

Lemma substring_digits36 (n : nat) (l : list N) :
  String.substring 0 n (Number.digits36 l) = Number.digits36 (firstn n l).
Proof.
  revert l; induction n as [|n IH]; intros [|d l]; simpl; try reflexivity.
  rewrite IH. reflexivity.
Qed.

Lemma token_digits (draw : list N) :
  token draw = Number.digits36 (firstn 7 draw).
Proof.
  unfold token, JsString.substring, Number.toString36.
  destruct draw as [|d r]; [reflexivity|].
  change (String.substring 2 (9 - 2) ("0." ++ Number.digits36 (d :: r)))
    with (String.substring 0 7 (Number.digits36 (d :: r))).
  apply substring_digits36.
Qed.

(** C9, as stated, fails: the draw 0.5 prints as [0.i] in radix 36 and
    leaves a token of one character. *)
Lemma token_of_one_half :
  Number.toString36 [18%N] = "0.i"
  /\ token [18%N] = "i"
  /\ NomeArquivo 1700000000000 [18%N] (extensao (Some "image/png"))
     = "1700000000000-i.png"
  /\ ~ (String.length (token [18%N]) = 6%nat
        \/ String.length (token [18%N]) = 7%nat).
Proof.
  repeat split. intros [H|H]; discriminate H.
Qed.

(** C9, amended. The object key is the clock in decimal, a dash, the
    token, a dot and the extension; the token is the first seven
    radix-36 fraction digits of the draw, or all of them when the draw
    prints with fewer: at most seven characters, exactly seven when the
    draw has that many digits. *)
Theorem NomeArquivo_shape (now : Z) (draw : list N)
  (ext : ObjectLiteral.PropValue) :
  NomeArquivo now draw ext
  = Number.toString (JInt now) ++ "-"
    ++ Number.digits36 (firstn 7 draw) ++ "." ++ ObjectLiteral.toString ext
  /\ String.length (token draw) = Nat.min 7 (List.length draw)
  /\ (String.length (token draw) <= 7)%nat.
Proof.
  unfold NomeArquivo. rewrite token_digits, digits36_length.
  rewrite length_firstn. repeat split. lia.
Qed.

(* ------------------------------------------------------------------ *)
(** ** Base64: decoding what the encoder wrote *)

Section Base64.

Local Open Scope N_scope.

Lemma In_below (n : nat) (x : N) : x < N.of_nat n -> In x (below n).
Proof.
  intros H. unfold below. apply in_map_iff.
  exists (N.to_nat x). split; [apply N2Nat.id | apply in_seq; lia].
Qed.

Lemma all_below_spec (n : nat) (P : N -> bool) :
  all_below n P = true -> forall x, x < N.of_nat n -> P x = true.
Proof.
  unfold all_below. intros H x Hx.
  rewrite forallb_forall in H. apply H, In_below, Hx.
Qed.

Lemma all_bytes2 (P : N -> N -> bool) :
  all_below 256 (fun a => all_below 256 (P a)) = true ->
  forall a b, Buffer.isByte a -> Buffer.isByte b -> P a b = true.
Proof.
  intros H a b Ha Hb.
  apply (all_below_spec 256 (P a)); [|exact Hb].
  apply (all_below_spec 256 (fun a => all_below 256 (P a)) H a Ha).
Qed.

Lemma base64Char_legal (v : N) :
  v < 64 ->
  Buffer.unbase64 (Buffer.base64Char v) = Some v
  /\ Ascii.eqb (Buffer.base64Char v) "=" = false.
Proof.
  intros Hv.
  assert (H : (match Buffer.unbase64 (Buffer.base64Char v) with
               | Some u => u =? v
               | None => false
               end && negb (Ascii.eqb (Buffer.base64Char v) "="))%bool
              = true).
  { apply (all_below_spec 64
             (fun v => (match Buffer.unbase64 (Buffer.base64Char v) with
                        | Some u => u =? v
                        | None => false
                        end
                        && negb (Ascii.eqb (Buffer.base64Char v) "="))%bool));
      [vm_compute; reflexivity | exact Hv]. }
  apply andb_true_iff in H. destruct H as [H1 H2].
  destruct (Buffer.unbase64 (Buffer.base64Char v)) as [u|]; [|discriminate].
  apply N.eqb_eq in H1. subst u. split; [reflexivity|].
  apply negb_true_iff, H2.
Qed.

Lemma sextets_char (v : N) (s : string) :
  v < 64 ->
  Buffer.sextets (String (Buffer.base64Char v) s) = v :: Buffer.sextets s.
Proof.
  intros Hv. destruct (base64Char_legal v Hv) as [H1 H2].
  cbn [Buffer.sextets]. rewrite H2, H1. reflexivity.
Qed.

(** What the four sextets of a group keep of its bytes. *)
Lemma sextet_pairs (a b : N) :
  Buffer.isByte a -> Buffer.isByte b ->
  Buffer.sextet1 a < 64 /\ Buffer.sextet2 a b < 64
  /\ Buffer.sextet3 a b < 64 /\ Buffer.sextet4 a < 64
  /\ Buffer.byte1 (Buffer.sextet1 a) (Buffer.sextet2 a b) = a
  /\ Buffer.byte3 (Buffer.sextet3 a b) (Buffer.sextet4 b) = b
  /\ N.land (Buffer.sextet2 a b) 15 = N.shiftr b 4
  /\ N.shiftr (N.land (Buffer.sextet3 a b) 60) 2 = N.land a 15
  /\ N.land (N.lor (N.shiftl (N.shiftr a 4) 4) (N.land a 15)) 255 = a.
Proof.
  intros Ha Hb.
  pose (P := fun a b =>
    ((Buffer.sextet1 a <? 64) && (Buffer.sextet2 a b <? 64)
     && (Buffer.sextet3 a b <? 64) && (Buffer.sextet4 a <? 64)
     && (Buffer.byte1 (Buffer.sextet1 a) (Buffer.sextet2 a b) =? a)
     && (Buffer.byte3 (Buffer.sextet3 a b) (Buffer.sextet4 b) =? b)
     && (N.land (Buffer.sextet2 a b) 15 =? N.shiftr b 4)
     && (N.shiftr (N.land (Buffer.sextet3 a b) 60) 2 =? N.land a 15)
     && (N.land (N.lor (N.shiftl (N.shiftr a 4) 4) (N.land a 15)) 255 =? a)
    )%bool).
  assert (H : P a b = true).
  { apply all_bytes2; [vm_compute; reflexivity | exact Ha | exact Hb]. }
  unfold P in H.
  repeat (apply andb_true_iff in H; destruct H as [H ?]).
  repeat match goal with
         | X : (_ <? _) = true |- _ => apply N.ltb_lt in X
         | X : (_ =? _) = true |- _ => apply N.eqb_eq in X
         end.
  repeat split; assumption.
Qed.

Lemma byte2_middle (a b c : N) :
  Buffer.isByte a -> Buffer.isByte b -> Buffer.isByte c ->
  Buffer.byte2 (Buffer.sextet2 a b) (Buffer.sextet3 b c) = b.
Proof.
  intros Ha Hb Hc. unfold Buffer.byte2.
  destruct (sextet_pairs a b Ha Hb) as (_ & _ & _ & _ & _ & _ & H1 & _ & _).
  destruct (sextet_pairs b c Hb Hc) as (_ & _ & _ & _ & _ & _ & _ & H2 & H3).
  rewrite H1, H2. exact H3.
Qed.

Lemma isByte_0 : Buffer.isByte 0.
Proof. unfold Buffer.isByte. lia. Qed.

Lemma list_ind3 {A : Type} (P : list A -> Prop) :
  P [] -> (forall a, P [a]) -> (forall a b, P [a; b]) ->
  (forall a b c r, P r -> P (a :: b :: c :: r)) ->
  forall l, P l.
Proof.
  intros H0 H1 H2 H3. fix IH 1.
  intros [|a [|b [|c r]]]; [exact H0 | apply H1 | apply H2 |].
  apply H3, IH.
Qed.

(** Decoding gives back the bytes that were encoded. *)
Lemma from_base64_toString (l : list N) :
  Forall Buffer.isByte l ->
  Buffer.from_base64 (Buffer.toString_base64 l) = l.
Proof.
  unfold Buffer.from_base64.
  induction l as [| a | a b | a b c r IH] using list_ind3; intros Hl.
  - reflexivity.
  - inversion_clear Hl as [|? ? Ha _].
    destruct (sextet_pairs a 0 Ha isByte_0) as (S1 & S2 & _ & _ & B1 & _).
    cbn [Buffer.toString_base64].
    rewrite (sextets_char _ _ S1), (sextets_char _ _ S2).
    cbn [Buffer.sextets Ascii.eqb Bool.eqb Buffer.pack]. rewrite B1.
    reflexivity.
  - inversion_clear Hl as [|? ? Ha Hl']. inversion_clear Hl' as [|? ? Hb _].
    destruct (sextet_pairs a b Ha Hb) as (S1 & S2 & _ & _ & B1 & _).
    destruct (sextet_pairs b 0 Hb isByte_0) as (_ & _ & S3 & _).
    cbn [Buffer.toString_base64].
    rewrite (sextets_char _ _ S1), (sextets_char _ _ S2),
      (sextets_char _ _ S3).
    cbn [Buffer.sextets Ascii.eqb Bool.eqb Buffer.pack].
    rewrite B1, (byte2_middle a b 0 Ha Hb isByte_0). reflexivity.
  - inversion_clear Hl as [|? ? Ha Hl']. inversion_clear Hl' as [|? ? Hb Hl''].
    inversion_clear Hl'' as [|? ? Hc Hr].
    destruct (sextet_pairs a b Ha Hb) as (S1 & S2 & _ & _ & B1 & _).
    destruct (sextet_pairs b c Hb Hc) as (_ & _ & S3 & _ & _ & B3 & _).
    destruct (sextet_pairs c 0 Hc isByte_0) as (_ & _ & _ & S4 & _).
    cbn [Buffer.toString_base64].
    rewrite (sextets_char _ _ S1), (sextets_char _ _ S2),
      (sextets_char _ _ S3), (sextets_char _ _ S4).
    cbn [Buffer.pack].
    rewrite B1, (byte2_middle a b c Ha Hb Hc), B3, (IH Hr). reflexivity.
Qed.

End Base64.

(** C6, as stated, fails: a payload whose body leaves out the padding
    passes the format check, and its bytes encode to the padded text. *)
Lemma roundtrip_unpadded_body :
  let dataUrl := "data:application/pdf;base64,JVBERi0" in
  let parts := JsString.split ";base64," dataUrl in
  checkFormat (VStr dataUrl) = Ok parts
  /\ nth 1 parts "" = "JVBERi0"
  /\ Buffer.from_base64 (nth 1 parts "") = [37; 80; 68; 70; 45]%N
  /\ Buffer.toString_base64 (Buffer.from_base64 (nth 1 parts ""))
     = "JVBERi0="
  /\ Buffer.toString_base64 (Buffer.from_base64 (nth 1 parts ""))
     <> nth 1 parts "".
Proof.
  cbv zeta. repeat split. discriminate.
Qed.

(** C6, amended. For a payload that passes the format check and whose
    body is the padded standard base64 text of some bytes, the decoder
    extracts those bytes, and encoding them gives the body back. *)
Theorem base64_roundtrip (dataUrl : string) (parts : list string)
  (bytes : list N) :
  checkFormat (VStr dataUrl) = Ok parts ->
  Forall Buffer.isByte bytes ->
  nth 1 parts "" = Buffer.toString_base64 bytes ->
  Buffer.from_base64 (nth 1 parts "") = bytes
  /\ Buffer.toString_base64 (Buffer.from_base64 (nth 1 parts ""))
     = nth 1 parts "".
Proof.
  intros _ Hb Hbody. rewrite Hbody.
  rewrite (from_base64_toString bytes Hb). split; reflexivity.
Qed.

Lemma base64_roundtrip_witness :
  let dataUrl := "data:image/png;base64,iVBORw0KGgo=" in
  let parts := JsString.split ";base64," dataUrl in
  let bytes := [137; 80; 78; 71; 13; 10; 26; 10]%N in
  checkFormat (VStr dataUrl) = Ok parts
  /\ Forall Buffer.isByte bytes
  /\ nth 1 parts "" = Buffer.toString_base64 bytes
  /\ Buffer.from_base64 (nth 1 parts "") = bytes
  /\ Buffer.toString_base64 (Buffer.from_base64 (nth 1 parts ""))
     = nth 1 parts "".
Proof.
  cbv zeta.
  assert (Hb : Forall Buffer.isByte [137; 80; 78; 71; 13; 10; 26; 10]%N).
  { repeat constructor. }
  split; [reflexivity|]. split; [exact Hb|]. split; [reflexivity|].
  apply (base64_roundtrip "data:image/png;base64,iVBORw0KGgo="
           (JsString.split ";base64," "data:image/png;base64,iVBORw0KGgo=")
           [137; 80; 78; 71; 13; 10; 26; 10]%N);
    [reflexivity | exact Hb | reflexivity].
Defined.

(* ------------------------------------------------------------------ *)
(** ** ORDER BY id DESC *)

Section Ordering.

Lemma insert_desc_perm (r : Row) (l : list Row) :
  Permutation (Db.insert_desc r l) (r :: l).
Proof.
  induction l as [|x l IH]; simpl; [apply Permutation_refl|].
  destruct (id x <=? id r).
  - apply Permutation_refl.
  - apply Permutation_trans with (x :: r :: l).
    + apply perm_skip, IH.
    + apply perm_swap.
Qed.

Lemma order_by_id_desc_perm (l : list Row) :
  Permutation (Db.order_by_id_desc l) l.
Proof.
  induction l as [|r l IH]; simpl; [apply perm_nil|].
  apply Permutation_trans with (r :: Db.order_by_id_desc l).
  - apply insert_desc_perm.
  - apply perm_skip, IH.
Qed.

Lemma insert_desc_sorted (r : Row) (l : list Row) :
  descending l -> descending (Db.insert_desc r l).
Proof.
  unfold descending. induction l as [|x l IH]; intros Hs; simpl.
  - constructor; constructor.
  - apply StronglySorted_inv in Hs. destruct Hs as [Hl Hx].
    destruct (Z.leb_spec (id x) (id r)) as [Hle|Hlt].
    + constructor; [constructor; assumption|].
      constructor; [exact Hle|].
      eapply Forall_impl; [|exact Hx]. cbv beta. intros b Hb. lia.
    + constructor; [apply IH, Hl|].
      apply (Permutation_Forall (Permutation_sym (insert_desc_perm r l))).
      constructor; [lia | exact Hx].
Qed.

Lemma order_by_id_desc_sorted (l : list Row) :
  descending (Db.order_by_id_desc l).
Proof.
  induction l as [|r l IH]; simpl.
  - constructor.
  - apply insert_desc_sorted, IH.
Qed.

End Ordering.

(* ------------------------------------------------------------------ *)
(** ** Running the handlers *)

Lemma db_calls_app (a b : list Event) :
  db_calls (a ++ b) = (db_calls a ++ db_calls b)%list.
Proof. apply flat_map_app. Qed.

Lemma put_calls_app (a b : list Event) :
  put_calls (a ++ b) = (put_calls a ++ put_calls b)%list.
Proof. apply flat_map_app. Qed.

Lemma del_calls_app (a b : list Event) :
  del_calls (a ++ b) = (del_calls a ++ del_calls b)%list.
Proof. apply flat_map_app. Qed.

(** What [await db.query] does to the world. *)
Lemma query_run (env : Env) (q : Query) (w : World) :
  Db.query env q w
  = match query_fault env (tick w) q with
    | Some e =>
        (Throw e,
         mkWorld (rows w) (next_id w) (S (tick w)) (trace w ++ [EQuery q]))
    | None =>
        let '(res, table, next) :=
          Db.execute env q (rows w) (next_id w) in
        (Ok res, mkWorld table next (S (tick w)) (trace w ++ [EQuery q]))
    end.
Proof.
  unfold Db.query, bind, call, throw.
  destruct (query_fault env (tick w) q); [reflexivity|].
  cbn [tick rows next_id trace].
  destruct (Db.execute env q (rows w) (next_id w)) as [[res table] next].
  reflexivity.
Qed.

(** C7. When the query is answered, the list route responds 200 with the
    rows of the table at that time, each one once, in descending order of
    id, every row renamed field by field to its external form, and as
    many entries as the table has rows; the table is left as it was. *)
Theorem get_produtos_lists (env : Env) (w : World) :
  query_fault env (tick w) SelectAll = None ->
  exists listed : list Row,
    get_produtos env w
    = (Ok (mkResponse 200 (JProdutos (map formatar listed))),
       mkWorld (rows w) (next_id w) (S (tick w))
         (trace w ++ [EQuery SelectAll]))
    /\ Permutation listed (rows w)
    /\ descending listed
    /\ List.length (map formatar listed) = List.length (rows w)
    /\ (forall r : Row,
          p_id (formatar r) = id r
          /\ name (formatar r) = nome r
          /\ image (formatar r) = imagem_url r
          /\ pdfDataUrl (formatar r) = pdf_url r
          /\ youtubeLink (formatar r) = youtube_link r).
Proof.
  intros Hq. exists (Db.order_by_id_desc (rows w)).
  split; [|split; [|split; [|split]]].
  - unfold get_produtos, try_catch, bind. rewrite query_run, Hq.
    reflexivity.
  - apply order_by_id_desc_perm.
  - apply order_by_id_desc_sorted.
  - rewrite length_map.
    apply Permutation_length, order_by_id_desc_perm.
  - intros r. repeat split.
Qed.

Lemma get_produtos_lists_witness :
  let env := Sample.env (Sample.always true) (Sample.always true) in
  query_fault env (tick Sample.world) SelectAll = None
  /\ exists listed : list Row,
       get_produtos env Sample.world
       = (Ok (mkResponse 200 (JProdutos (map formatar listed))),
          mkWorld (rows Sample.world) (next_id Sample.world)
            (S (tick Sample.world))
            (trace Sample.world ++ [EQuery SelectAll]))
       /\ Permutation listed (rows Sample.world)
       /\ descending listed
       /\ List.length (map formatar listed)
          = List.length (rows Sample.world)
       /\ (forall r : Row,
             p_id (formatar r) = id r
             /\ name (formatar r) = nome r
             /\ image (formatar r) = imagem_url r
             /\ pdfDataUrl (formatar r) = pdf_url r
             /\ youtubeLink (formatar r) = youtube_link r).
Proof.
  cbv zeta. split; [reflexivity|].
  apply (get_produtos_lists
           (Sample.env (Sample.always true) (Sample.always true))
           Sample.world).
  reflexivity.
Defined.

(** The list route on the sample table: ids 3, 12, 7 come out as 12, 7, 3. *)
Example get_produtos_sample :
  fst (get_produtos (Sample.env (Sample.always true) (Sample.always true))
         Sample.world)
  = Ok (mkResponse 200
          (JProdutos (map formatar [Sample.row 12; Sample.row 7; Sample.row 3]))).
Proof. reflexivity. Qed.

(* ------------------------------------------------------------------ *)
(** ** Create *)

(** An upload touches neither the table nor the database, whatever its
    outcome, and calls [put] at most once. *)
Lemma upload_frame (env : Env) (v : JsVal) (w : World) :
  let w' := snd (uploadBase64ToStorage env v w) in
  rows w' = rows w /\ next_id w' = next_id w
  /\ exists evs, trace w' = (trace w ++ evs)%list
       /\ db_calls evs = [] /\ del_calls evs = []
       /\ (List.length (put_calls evs) <= 1)%nat.
Proof.
  unfold uploadBase64ToStorage, bind, lift, call, ret.
  destruct (checkFormat v) as [parts|e]; cbn [snd rows next_id tick trace].
  - destruct (put_result env _ _ _ _) as [url|e];
      cbn [snd rows next_id tick trace];
      (split; [reflexivity|]; split; [reflexivity|]);
      rewrite !app_nil_r; eexists; (split; [reflexivity|]);
      cbn; repeat split; lia.
  - split; [reflexivity|]. split; [reflexivity|].
    exists []. rewrite app_nil_r. cbn. repeat split; lia.
Qed.

(** C3. When one of the four fields of the body is absent, empty or
    otherwise falsy, the create route answers 400 and the world is
    exactly as before: no upload, no query, nothing logged. *)
Theorem post_produtos_missing_field (env : Env) (body : CreateBody)
  (w : World) :
  truthy (body_nome body) = false \/ truthy (body_imagem body) = false
  \/ truthy (body_pdfDataUrl body) = false
  \/ truthy (body_youtubeLink body) = false ->
  post_produtos env body w = (Ok MissingField, w)
  /\ status MissingField = 400.
Proof.
  intros H. split; [|reflexivity]. unfold post_produtos.
  assert (E : negb (truthy (body_nome body))
              || negb (truthy (body_imagem body))
              || negb (truthy (body_pdfDataUrl body))
              || negb (truthy (body_youtubeLink body)) = true).
  { destruct H as [H|[H|[H|H]]]; rewrite H; cbn [negb];
      rewrite ?orb_true_r; reflexivity. }
  rewrite E. reflexivity.
Qed.

Lemma post_produtos_missing_field_witness :
  let env := Sample.env (Sample.always true) (Sample.always true) in
  let body :=
    mkCreateBody (VStr "Widget") (VStr "")
      VUndefined (VStr "https://youtu.be/x") in
  (truthy (body_nome body) = false \/ truthy (body_imagem body) = false
   \/ truthy (body_pdfDataUrl body) = false
   \/ truthy (body_youtubeLink body) = false)
  /\ post_produtos env body Sample.world = (Ok MissingField, Sample.world)
  /\ status MissingField = 400.
Proof.
  cbv zeta. split; [right; left; reflexivity|].
  apply post_produtos_missing_field. right; left; reflexivity.
Defined.

(** C1. With the four fields present, when the upload of the image
    throws, or the upload of the image succeeds and that of the document
    throws, the create route answers the 500 upload error; the world is
    the one the failed upload left, with the error logged: the table and
    the id counter are untouched, no query was issued, and no [put]
    follows the failure. *)
Theorem post_produtos_upload_failure (env : Env) (body : CreateBody)
  (w w1 : World) (e : JsError) :
  truthy (body_nome body) = true -> truthy (body_imagem body) = true ->
  truthy (body_pdfDataUrl body) = true ->
  truthy (body_youtubeLink body) = true ->
  uploadBase64ToStorage env (body_imagem body) w = (Throw e, w1)
  \/ (exists url w0,
        uploadBase64ToStorage env (body_imagem body) w = (Ok url, w0)
        /\ uploadBase64ToStorage env (body_pdfDataUrl body) w0
           = (Throw e, w1)) ->
  let w' := logged "Erro no cadastro ou upload:" e w1 in
  post_produtos env body w = (Ok UploadFailed, w')
  /\ status UploadFailed = 500
  /\ rows w' = rows w /\ next_id w' = next_id w
  /\ db_calls (trace w') = db_calls (trace w)
  /\ put_calls (trace w') = put_calls (trace w1).
Proof.
  intros Hn Hi Hp Hy Hfail w'.
  assert (Hrun : post_produtos env body w = (Ok UploadFailed, w')).
  { unfold post_produtos. rewrite Hn, Hi, Hp, Hy. cbn [negb orb].
    unfold try_catch at 1. unfold bind at 1.
    destruct Hfail as [Himg | (url & w0 & Himg & Hpdf)].
    - rewrite Himg. reflexivity.
    - rewrite Himg. unfold bind at 1. rewrite Hpdf. reflexivity. }
  assert (Hframe : rows w1 = rows w /\ next_id w1 = next_id w
                   /\ db_calls (trace w1) = db_calls (trace w)).
  { destruct Hfail as [Himg | (url & w0 & Himg & Hpdf)].
    - pose proof (upload_frame env (body_imagem body) w) as F.
      rewrite Himg in F. cbn [snd] in F.
      destruct F as (Fr & Fn & evs & Ft & Fd & _).
      rewrite Ft, db_calls_app, Fd, app_nil_r. auto.
    - pose proof (upload_frame env (body_imagem body) w) as F.
      rewrite Himg in F. cbn [snd] in F.
      destruct F as (Fr & Fn & evs & Ft & Fd & _).
      pose proof (upload_frame env (body_pdfDataUrl body) w0) as G.
      rewrite Hpdf in G. cbn [snd] in G.
      destruct G as (Gr & Gn & evs' & Gt & Gd & _).
      rewrite Gt, db_calls_app, Gd, app_nil_r, Ft, db_calls_app, Fd,
        app_nil_r, Gr, Gn.
      auto. }
  destruct Hframe as (Hr & Hni & Hd).
  split; [exact Hrun|]. split; [reflexivity|].
  unfold w', logged. cbn [rows next_id trace].
  rewrite db_calls_app, put_calls_app. cbn. rewrite !app_nil_r. auto.
Qed.

Lemma post_produtos_upload_failure_witness :
  let env := Sample.env (fun t => Nat.ltb t 3) (Sample.always true) in
  let body := Sample.body "data:image/png;base64,iVBORw0KGgo=" in
  let url := Sample.url_of "1700000000000-i3z07l9.png" in
  let e := Error "put failed" in
  let w0 := snd (uploadBase64ToStorage env (body_imagem body) Sample.world) in
  let w1 := snd (uploadBase64ToStorage env (body_pdfDataUrl body) w0) in
  let w' := logged "Erro no cadastro ou upload:" e w1 in
  (uploadBase64ToStorage env (body_imagem body) Sample.world = (Ok url, w0)
   /\ uploadBase64ToStorage env (body_pdfDataUrl body) w0 = (Throw e, w1))
  /\ post_produtos env body Sample.world = (Ok UploadFailed, w')
  /\ status UploadFailed = 500
  /\ rows w' = rows Sample.world /\ next_id w' = next_id Sample.world
  /\ db_calls (trace w') = db_calls (trace Sample.world)
  /\ put_calls (trace w') = put_calls (trace w1).
Proof.
  cbv zeta. split; [split; reflexivity|].
  apply (post_produtos_upload_failure
           (Sample.env (fun t => Nat.ltb t 3) (Sample.always true))
           (Sample.body "data:image/png;base64,iVBORw0KGgo=")
           Sample.world
           (snd (uploadBase64ToStorage
                   (Sample.env (fun t => Nat.ltb t 3) (Sample.always true))
                   (VStr "data:application/pdf;base64,JVBERi0=")
                   (snd (uploadBase64ToStorage
                           (Sample.env (fun t => Nat.ltb t 3)
                              (Sample.always true))
                           (VStr "data:image/png;base64,iVBORw0KGgo=")
                           Sample.world))))
           (Error "put failed"));
    try reflexivity.
  right. exists (Sample.url_of "1700000000000-i3z07l9.png").
  exists (snd (uploadBase64ToStorage
                 (Sample.env (fun t => Nat.ltb t 3) (Sample.always true))
                 (VStr "data:image/png;base64,iVBORw0KGgo=")
                 Sample.world)).
  split; reflexivity.
Defined.

(* ------------------------------------------------------------------ *)
(** ** Delete *)

Lemma filter_none {A : Type} (f : A -> bool) (l : list A) :
  (forall x, In x l -> f x = false) -> filter f l = [].
Proof.
  induction l as [|a l IH]; intros H; [reflexivity|].
  simpl. rewrite (H a (or_introl eq_refl)).
  apply IH. intros x Hx. apply H. right. exact Hx.
Qed.

(** The clean-up loop always completes: every url gets its [del], in
    order, whatever the earlier ones did; the table is not touched. *)
Lemma delete_blobs_run (env : Env) (urls : list string) :
  forall w : World,
  exists w' : World,
    delete_blobs env urls w = (Ok tt, w')
    /\ rows w' = rows w /\ next_id w' = next_id w
    /\ del_calls (trace w') = (del_calls (trace w) ++ urls)%list
    /\ db_calls (trace w') = db_calls (trace w).
Proof.
  induction urls as [|url rest IH]; intros w.
  - exists w. cbn. rewrite app_nil_r. repeat split.
  - cbn [delete_blobs]. unfold bind at 1. unfold try_catch, bind, call, lift.
    destruct (del_result env (tick w) url) as [[]|fileErr].
    + match goal with |- context [delete_blobs env rest ?w1] =>
        destruct (IH w1) as (w' & Hrun & Hr & Hn & Hd & Hq) end.
      exists w'. rewrite Hrun, Hr, Hn, Hd, Hq. cbn [rows next_id trace].
      rewrite del_calls_app, db_calls_app. cbn.
      rewrite <- app_assoc, app_nil_r. repeat split.
    + unfold console_warn. cbn [rows next_id tick trace].
      match goal with |- context [delete_blobs env rest ?w1] =>
        destruct (IH w1) as (w' & Hrun & Hr & Hn & Hd & Hq) end.
      exists w'. rewrite Hrun, Hr, Hn, Hd, Hq. cbn [rows next_id trace].
      rewrite !del_calls_app, !db_calls_app. cbn.
      rewrite <- !app_assoc, !app_nil_r. repeat split.
Qed.

(** Deleting a product that exists, once both queries are answered. *)
Lemma delete_by_id_existing (env : Env) (i : JsNum) (w : World)
  (r : Row) (found : list Row) :
  query_fault env (tick w) (SelectById i) = None ->
  query_fault env (S (tick w)) (DeleteById i) = None ->
  filter (Db.id_is i) (rows w) = r :: found ->
  exists w' : World,
    delete_by_id env i w = (Ok (Deleted i), w')
    /\ rows w' = filter (fun x => negb (Db.id_is i x)) (rows w)
    /\ del_calls (trace w')
       = (del_calls (trace w) ++ urlsToDelete (imagem_url r) (pdf_url r))%list
    /\ db_calls (trace w')
       = (db_calls (trace w) ++ [SelectById i; DeleteById i])%list.
Proof.
  intros Hsel Hdel Hfound.
  unfold delete_by_id, try_catch. unfold bind at 1.
  rewrite query_run, Hsel. cbn [Db.execute]. rewrite Hfound.
  cbn [Db.rowCount Db.result_rows List.length Nat.eqb].
  unfold bind at 1. rewrite query_run. cbn [tick rows next_id trace].
  rewrite Hdel. cbn [Db.execute].
  unfold bind at 1.
  match goal with |- context [delete_blobs env ?urls ?w1] =>
    destruct (delete_blobs_run env urls w1) as (w' & Hrun & Hr & Hn & Hd & Hq)
  end.
  rewrite Hrun. exists w'. cbn [rows trace] in Hr, Hd, Hq.
  split; [reflexivity|]. split; [exact Hr|].
  rewrite Hd, Hq, !del_calls_app, !db_calls_app. cbn.
  rewrite !app_nil_r, <- app_assoc. split; reflexivity.
Qed.

Lemma filter_negb_none {A : Type} (f : A -> bool) (l : list A) :
  forall x, In x (filter (fun y => negb (f y)) l) -> f x = false.
Proof.
  intros x Hx. apply filter_In in Hx. destruct Hx as [_ Hx].
  apply negb_true_iff, Hx.
Qed.

(** Both blob deletions fail on the sample table, and the answer is the
    same 200. *)
Example delete_produtos_sample :
  delete_produtos (Sample.env (Sample.always true) (Sample.always false))
    "12" Sample.world
  = (Ok (mkResponse 200 (JMessage "Produto 12 excluído com sucesso.")),
     mkWorld [Sample.row 3; Sample.row 7] 13 4
       [EQuery (SelectById (JInt 12)); EQuery (DeleteById (JInt 12));
        EDel (Sample.url_of "a.png");
        EConsoleWarn (Sample.url_of "a.png") "del failed";
        EDel (Sample.url_of "a.pdf");
        EConsoleWarn (Sample.url_of "a.pdf") "del failed"]).
Proof. reflexivity. Qed.

(** C4. When the id parameter does not parse as a number, or no row has
    the parsed id, and the select query is answered, the delete route
    answers 404 and the select is the only call made: no delete query,
    no [del]; the table is as before. *)
Theorem delete_produtos_not_found (env : Env) (param_id : string)
  (w : World) :
  let i := ParseInt.parseInt param_id in
  query_fault env (tick w) (SelectById i) = None ->
  i = JNaN \/ (forall r, In r (rows w) -> Db.id_is i r = false) ->
  delete_produtos env param_id w
  = (Ok NotFound,
     mkWorld (rows w) (next_id w) (S (tick w))
       (trace w ++ [EQuery (SelectById i)]))
  /\ status NotFound = 404
  /\ db_calls (trace w ++ [EQuery (SelectById i)])
     = (db_calls (trace w) ++ [SelectById i])%list
  /\ del_calls (trace w ++ [EQuery (SelectById i)]) = del_calls (trace w).
Proof.
  intros i Hsel Hnone.
  assert (Hfound : filter (Db.id_is i) (rows w) = []).
  { destruct Hnone as [Hnan|Hnone].
    - rewrite Hnan. apply filter_none. reflexivity.
    - apply filter_none, Hnone. }
  split; [|split; [reflexivity|]].
  - unfold delete_produtos. fold i. unfold delete_by_id, try_catch.
    unfold bind at 1. rewrite query_run, Hsel. cbn [Db.execute].
    rewrite Hfound. reflexivity.
  - rewrite db_calls_app, del_calls_app. cbn. rewrite app_nil_r.
    split; reflexivity.
Qed.

Lemma delete_produtos_not_found_witness :
  let env := Sample.env (Sample.always true) (Sample.always true) in
  let i := ParseInt.parseInt "abc" in
  (query_fault env (tick Sample.world) (SelectById i) = None
   /\ i = JNaN)
  /\ delete_produtos env "abc" Sample.world
     = (Ok NotFound,
        mkWorld (rows Sample.world) (next_id Sample.world)
          (S (tick Sample.world))
          (trace Sample.world ++ [EQuery (SelectById i)]))
  /\ status NotFound = 404
  /\ db_calls (trace Sample.world ++ [EQuery (SelectById i)])
     = (db_calls (trace Sample.world) ++ [SelectById i])%list
  /\ del_calls (trace Sample.world ++ [EQuery (SelectById i)])
     = del_calls (trace Sample.world).
Proof.
  cbv zeta. split; [split; reflexivity|].
  apply (delete_produtos_not_found
           (Sample.env (Sample.always true) (Sample.always true))
           "abc" Sample.world);
    [reflexivity | left; reflexivity].
Defined.

(* ------------------------------------------------------------------ *)
(** ** The id parameter *)

Section IdParameter.

Lemma radixDigit_decimal (c : ascii) :
  ParseInt.radixDigit 10 c = LeadingDecimal.decimalDigit c.
Proof.
  destruct c as [[] [] [] [] [] [] [] []]; reflexivity.
Qed.

Lemma digitsPrefix_decimal (s : string) :
  ParseInt.digitsPrefix 10 s = LeadingDecimal.digits s.
Proof.
  induction s as [|c s IH]; [reflexivity|].
  cbn [ParseInt.digitsPrefix LeadingDecimal.digits].
  rewrite radixDigit_decimal, IH. reflexivity.
Qed.

Lemma fold_value (ds : list Z) :
  forall acc : Z,
    fold_left (fun a d => a * 10 + d) ds acc = LeadingDecimal.value acc ds.
Proof.
  induction ds as [|d r IH]; intros acc; [reflexivity|].
  cbn [fold_left LeadingDecimal.value]. rewrite IH.
  f_equal. lia.
Qed.

(** An integer below 2^53 is a double: nothing is rounded. *)
Lemma ofNat_exact (m : Z) : m < 2 ^ 53 -> Number.ofNat m = JInt m.
Proof.
  intros Hm. unfold Number.ofNat.
  assert (Hk : Z.log2 m + 1 <= 53).
  { destruct (Z.le_gt_cases m 0) as [Hle|Hpos].
    - rewrite (Z.log2_nonpos m Hle). lia.
    - assert (Z.log2 m < 53) by (apply Z.log2_lt_pow2; lia). lia. }
  apply Z.leb_le in Hk. rewrite Hk. reflexivity.
Qed.

Lemma parseInt_decimal (param : string) :
  ParseInt.hexPrefixed (LeadingDecimal.unsignedPart param) = false ->
  ParseInt.parseInt param
  = match LeadingDecimal.digits (LeadingDecimal.unsignedPart param) with
    | [] => JNaN
    | ds =>
        let number := Number.ofNat (LeadingDecimal.value 0 ds) in
        if LeadingDecimal.negative param then Number.neg number else number
    end.
Proof.
  unfold LeadingDecimal.unsignedPart, LeadingDecimal.negative,
    ParseInt.parseInt.
  destruct (ParseInt.dropSign (ParseInt.trimStart param)) as [sg s].
  cbn [fst snd]. intros Hhex. rewrite Hhex, digitsPrefix_decimal.
  destruct (LeadingDecimal.digits s) as [|d r]; [reflexivity|].
  unfold ParseInt.valueOf. rewrite fold_value. reflexivity.
Qed.

End IdParameter.

(** C10, as stated, fails: a leading 0 followed by x is read by
    [parseInt] as a hexadecimal prefix.  [0x1A] has the leading decimal
    integer 0 but is parsed as 26, so that product 26 is deleted and
    product 0 is kept; [0xg] is not parsed as a number at all. *)
Lemma parseInt_hex_prefix :
  let env := Sample.env (Sample.always true) (Sample.always true) in
  let w := mkWorld [Sample.row 0; Sample.row 26] 27 0 [] in
  LeadingDecimal.read "0x1A" = Some 0
  /\ ParseInt.parseInt "0x1A" = JInt 26
  /\ ParseInt.parseInt "0x1A" <> JInt 0
  /\ fst (delete_produtos env "0x1A" w)
     = Ok (mkResponse 200 (JMessage "Produto 26 excluído com sucesso."))
  /\ rows (snd (delete_produtos env "0x1A" w)) = [Sample.row 0]
  /\ LeadingDecimal.read "0xg" = Some 0
  /\ ParseInt.parseInt "0xg" = JNaN.
Proof.
  cbv zeta. repeat split. discriminate.
Qed.

(** Beyond 2^53 the parsed id is the nearest double, not the integer
    written. *)
Example parseInt_rounds :
  LeadingDecimal.read "9007199254740993" = Some 9007199254740993
  /\ ParseInt.parseInt "9007199254740993" = JInt 9007199254740992.
Proof. split; reflexivity. Qed.

(** C10, amended. When the id parameter, after white space and an
    optional sign, starts with decimal digits that are not the 0 of a
    [0x] or [0X] prefix, and the integer n they write (with the sign) is
    below 2^53 in magnitude, [parseInt] yields n whatever follows the
    digits, and the delete route works on product n: if rows of id n
    exist and the two queries are answered, the answer names n and
    exactly the rows of id n are removed. *)
Theorem delete_produtos_leading_decimal (param_id : string) (n : Z) :
  LeadingDecimal.read param_id = Some n ->
  ParseInt.hexPrefixed (LeadingDecimal.unsignedPart param_id) = false ->
  Z.abs n < 2 ^ 53 ->
  ParseInt.parseInt param_id = JInt n
  /\ forall (env : Env) (w : World) (r : Row) (found : list Row),
       query_fault env (tick w) (SelectById (JInt n)) = None ->
       query_fault env (S (tick w)) (DeleteById (JInt n)) = None ->
       filter (fun x => id x =? n) (rows w) = r :: found ->
       exists w' : World,
         delete_produtos env param_id w = (Ok (Deleted (JInt n)), w')
         /\ rows w' = filter (fun x => negb (id x =? n)) (rows w)
         /\ db_calls (trace w')
            = (db_calls (trace w)
               ++ [SelectById (JInt n); DeleteById (JInt n)])%list.
Proof.
  intros Hread Hhex Hn.
  assert (Hparse : ParseInt.parseInt param_id = JInt n).
  { rewrite (parseInt_decimal param_id Hhex).
    unfold LeadingDecimal.read in Hread.
    destruct (LeadingDecimal.digits (LeadingDecimal.unsignedPart param_id))
      as [|d ds]; [discriminate|].
    cbv zeta. revert Hread.
    set (v := LeadingDecimal.value 0 (d :: ds)).
    destruct (LeadingDecimal.negative param_id); intros Hread;
      injection Hread as Hv.
    - rewrite ofNat_exact by lia. cbn [Number.neg]. rewrite Hv. reflexivity.
    - rewrite ofNat_exact by lia. rewrite Hv. reflexivity. }
  split; [exact Hparse|].
  intros env w r found Hsel Hdel Hfound.
  unfold delete_produtos. rewrite Hparse.
  destruct (delete_by_id_existing env (JInt n) w r found Hsel Hdel Hfound)
    as (w' & Hrun & Hr & _ & Hq).
  exists w'. repeat split; assumption.
Qed.

Lemma delete_produtos_leading_decimal_witness :
  let env := Sample.env (Sample.always true) (Sample.always true) in
  (LeadingDecimal.read "12abc" = Some 12
   /\ ParseInt.hexPrefixed (LeadingDecimal.unsignedPart "12abc") = false
   /\ Z.abs 12 < 2 ^ 53)
  /\ ParseInt.parseInt "12abc" = JInt 12
  /\ exists w' : World,
       delete_produtos env "12abc" Sample.world = (Ok (Deleted (JInt 12)), w')
       /\ rows w' = filter (fun x => negb (id x =? 12)) (rows Sample.world)
       /\ db_calls (trace w')
          = (db_calls (trace Sample.world)
             ++ [SelectById (JInt 12); DeleteById (JInt 12)])%list.
Proof.
  cbv zeta.
  assert (H : LeadingDecimal.read "12abc" = Some 12
              /\ ParseInt.hexPrefixed (LeadingDecimal.unsignedPart "12abc")
                 = false
              /\ Z.abs 12 < 2 ^ 53).
  { repeat split. }
  split; [exact H|].
  destruct H as (H1 & H2 & H3).
  destruct (delete_produtos_leading_decimal "12abc" 12 H1 H2 H3)
    as [Hparse Hdelete].
  split; [exact Hparse|].
  apply (Hdelete (Sample.env (Sample.always true) (Sample.always true))
           Sample.world (Sample.row 12) []);
    reflexivity.
Defined.

(* ------------------------------------------------------------------ *)
(** * Further properties of the routes *)

(* ------------------------------------------------------------------ *)
(** ** Splitting a payload *)

Section Splitting.

Lemma occurrences_none_split (sep s : string) :
  forall cur : string,
    JsString.occurrences sep s = 0%nat ->
    JsString.split_from sep 0 cur s = [cur ++ s].
Proof.
  induction s as [|x s IH]; intros cur H.
  - cbn. rewrite append_nil_r. reflexivity.
  - cbn [JsString.occurrences] in H. cbn [JsString.split_from].
    destruct (String.prefix sep (String x s)); [discriminate H|].
    cbn [Nat.add] in H. rewrite (IH _ H), append_assoc. reflexivity.
Qed.

Lemma occurrences_at_separator (c : ascii) (tl b : string) :
  JsString.mem c tl = false ->
  JsString.occurrences (String c tl) (String c tl ++ b)
  = S (JsString.occurrences (String c tl) b).
Proof.
  intros Hc.
  change (String c tl ++ b) with (String c (tl ++ b)).
  cbn [JsString.occurrences].
  change (String c (tl ++ b)) with (String c tl ++ b).
  rewrite prefix_app.
  rewrite (occurrences_skip c tl tl b (mem_not_head c tl Hc)). reflexivity.
Qed.

Lemma occurrences_before (sep a r : string) :
  (JsString.occurrences sep r <= JsString.occurrences sep (a ++ r))%nat.
Proof.
  induction a as [|x a IH]; [apply Nat.le_refl|].
  change (String x a ++ r) with (String x (a ++ r)).
  cbn [JsString.occurrences]. lia.
Qed.

(** A string with the separator exactly once splits in two around it. *)
Lemma split_once (c : ascii) (tl a b : string) :
  JsString.mem c tl = false ->
  forall cur : string,
    JsString.occurrences (String c tl) (a ++ String c tl ++ b) = 1%nat ->
    JsString.split_from (String c tl) 0 cur (a ++ String c tl ++ b)
    = [cur ++ a; b].
Proof.
  intros Hc. induction a as [|x a IH]; intros cur H.
  - change ("" ++ String c tl ++ b) with (String c tl ++ b) in *.
    rewrite (occurrences_at_separator c tl b Hc) in H.
    change (String c tl ++ b) with (String c (tl ++ b)).
    cbn [JsString.split_from].
    change (String c (tl ++ b)) with (String c tl ++ b).
    rewrite prefix_app. cbn [String.length Nat.pred].
    rewrite split_from_skip, append_nil_r.
    rewrite occurrences_none_split by lia. reflexivity.
  - change (String x a ++ String c tl ++ b)
      with (String x (a ++ String c tl ++ b)) in *.
    cbn [JsString.occurrences] in H. cbn [JsString.split_from].
    pose proof (occurrences_before (String c tl) a (String c tl ++ b)) as Hle.
    rewrite (occurrences_at_separator c tl b Hc) in Hle.
    destruct (String.prefix (String c tl) (String x (a ++ String c tl ++ b))).
    + exfalso. lia.
    + rewrite IH by lia. rewrite append_assoc. reflexivity.
Qed.

Lemma occurrences_char_none (c : ascii) (a : string) :
  JsString.mem c a = false ->
  JsString.occurrences (String c "") a = 0%nat.
Proof.
  induction a as [|x a IH]; intros H; [reflexivity|].
  cbn [JsString.mem] in H. apply orb_false_iff in H. destruct H as [Hx Ha].
  cbn [JsString.occurrences]. rewrite (IH Ha).
  cbn [String.prefix].
  destruct (ascii_dec c x) as [->|_]; [|reflexivity].
  rewrite Ascii.eqb_refl in Hx. discriminate Hx.
Qed.

(** Cutting at the first occurrence of a one-character separator. *)
Lemma split_char_first (c : ascii) (a b : string) :
  JsString.mem c a = false ->
  forall cur : string,
    JsString.split_from (String c "") 0 cur (a ++ String c b)
    = (cur ++ a) :: JsString.split_from (String c "") 0 "" b.
Proof.
  induction a as [|x a IH]; intros H cur.
  - cbn [append JsString.split_from String.prefix String.length Nat.pred].
    destruct (ascii_dec c c) as [_|n]; [|contradiction].
    destruct b; rewrite append_nil_r; reflexivity.
  - cbn [JsString.mem] in H. apply orb_false_iff in H. destruct H as [Hx Ha].
    change (String x a ++ String c b) with (String x (a ++ String c b)).
    cbn [JsString.split_from String.prefix].
    destruct (ascii_dec c x) as [->|_].
    + rewrite Ascii.eqb_refl in Hx. discriminate Hx.
    + rewrite (IH Ha), append_assoc. reflexivity.
Qed.

(** The declared type is what stands between [data:] and the end of the
    header, or the next colon if the header has one. *)
Lemma mimeTypeOf_header (mime tail body : string) :
  JsString.mem ":" mime = false ->
  tail = "" \/ (exists t, tail = String ":" t) ->
  mimeTypeOf ["data:" ++ mime ++ tail; body] = Some mime.
Proof.
  intros Hm Htail. unfold mimeTypeOf, JsString.split. cbn [nth].
  change ("data:" ++ mime ++ tail) with ("data" ++ String ":" (mime ++ tail)).
  rewrite (split_char_first ":" "data" (mime ++ tail) eq_refl "").
  cbn [nth_error]. destruct Htail as [->|[t ->]].
  - rewrite append_nil_r.
    rewrite (occurrences_none_split ":" mime ""
               (occurrences_char_none ":" mime Hm)).
    reflexivity.
  - rewrite (split_char_first ":" mime t Hm ""). reflexivity.
Qed.

End Splitting.

(* ------------------------------------------------------------------ *)
(** ** uploadBase64ToStorage, from payload to [put] *)

Lemma checkFormat_ill_formed (v : JsVal) :
  (forall s, v = VStr s -> ~ wellFormed s) ->
  exists e, checkFormat v = Throw e.
Proof.
  intros H. destruct v as [| |b|n|s|].
  - eexists; reflexivity.
  - eexists; reflexivity.
  - destruct b; eexists; reflexivity.
  - unfold checkFormat. destruct (negb (truthy (VNum n))); eexists; reflexivity.
  - rewrite checkFormat_string. specialize (H s eq_refl).
    unfold wellFormed in H.
    destruct (JsString.startsWith "data:" s); [|eexists; reflexivity].
    destruct (Nat.eqb_spec (JsString.occurrences ";base64," s) 1) as [E|E];
      [|eexists; reflexivity].
    exfalso. apply H. split; [reflexivity | exact E].
  - eexists; reflexivity.
Qed.

(** X1. A payload that is not a string of the decoder's shape (a number,
    a boolean, an object, null, or a string without the prefix or without
    exactly one delimiter) makes the upload throw before anything
    outside is consulted: the world is exactly as before, no clock read,
    no random draw, no [put]. *)
Theorem upload_rejects_ill_formed (env : Env) (v : JsVal) (w : World) :
  (forall s, v = VStr s -> ~ wellFormed s) ->
  exists e, uploadBase64ToStorage env v w = (Throw e, w).
Proof.
  intros H. destruct (checkFormat_ill_formed v H) as [e He].
  exists e. unfold uploadBase64ToStorage, bind, lift. rewrite He.
  reflexivity.
Qed.

Lemma upload_rejects_ill_formed_witness :
  (forall s, VNum (JInt 7) = VStr s -> ~ wellFormed s)
  /\ exists e,
       uploadBase64ToStorage
         (Sample.env (Sample.always true) (Sample.always true))
         (VNum (JInt 7)) Sample.world
       = (Throw e, Sample.world).
Proof.
  assert (H : forall s, VNum (JInt 7) = VStr s -> ~ wellFormed s).
  { intros s Hs. discriminate Hs. }
  split; [exact H|].
  apply (upload_rejects_ill_formed
           (Sample.env (Sample.always true) (Sample.always true))
           (VNum (JInt 7)) Sample.world H).
Defined.

Lemma checkFormat_well_formed (mime body : string) :
  JsString.occurrences ";base64," ("data:" ++ mime ++ ";base64," ++ body)
  = 1%nat ->
  checkFormat (VStr ("data:" ++ mime ++ ";base64," ++ body))
  = Ok ["data:" ++ mime; body].
Proof.
  intros H. rewrite checkFormat_string.
  unfold JsString.startsWith. rewrite prefix_app, H. cbn [Nat.eqb].
  unfold JsString.split.
  replace ("data:" ++ mime ++ ";base64," ++ body)
    with (("data:" ++ mime) ++ ";base64," ++ body) in *
    by apply append_assoc.
  rewrite (split_once ";" "base64," ("data:" ++ mime) body eq_refl "" H).
  reflexivity.
Qed.

(** X2. For a payload [data:<mime>;base64,<body>] with the delimiter
    once and no colon in the type, the upload reads the clock, then the
    random source, then calls [put] exactly once, with the synthesized
    key, the bytes decoded from the body and the declared type as
    content type; it returns the URL [put] resolves to, or throws what
    [put] rejects with. *)
Theorem upload_well_formed (env : Env) (mime body : string) (w : World) :
  JsString.mem ":" mime = false ->
  JsString.occurrences ";base64," ("data:" ++ mime ++ ";base64," ++ body)
  = 1%nat ->
  let key :=
    NomeArquivo (Date_now env (tick w)) (Math_random env (S (tick w)))
      (extensao (Some mime)) in
  let bytes := Buffer.from_base64 body in
  uploadBase64ToStorage env
    (VStr ("data:" ++ mime ++ ";base64," ++ body)) w
  = (put_result env (S (S (tick w))) key bytes (Some mime),
     mkWorld (rows w) (next_id w) (S (S (S (tick w))))
       (trace w ++ [EPut key bytes (Some mime)])).
Proof.
  intros Hm Hocc key bytes.
  unfold uploadBase64ToStorage. unfold bind at 1. unfold lift at 1.
  rewrite (checkFormat_well_formed mime body Hocc).
  assert (Hmime : mimeTypeOf ["data:" ++ mime; body] = Some mime).
  { rewrite <- (append_nil_r mime) at 1.
    apply mimeTypeOf_header; [exact Hm | left; reflexivity]. }
  cbv zeta. rewrite Hmime. cbn [nth].
  unfold bind, call, lift, ret. cbn [tick rows next_id trace].
  rewrite !app_nil_r. fold bytes. fold key.
  destruct (put_result env (S (S (tick w))) key bytes (Some mime));
    reflexivity.
Qed.

Lemma upload_well_formed_witness :
  let env := Sample.env (Sample.always true) (Sample.always true) in
  let mime := "image/png" in
  let body := "iVBORw0KGgo=" in
  let key :=
    NomeArquivo (Date_now env (tick Sample.world))
      (Math_random env (S (tick Sample.world))) (extensao (Some mime)) in
  let bytes := Buffer.from_base64 body in
  (JsString.mem ":" mime = false
   /\ JsString.occurrences ";base64,"
        ("data:" ++ mime ++ ";base64," ++ body) = 1%nat)
  /\ uploadBase64ToStorage env
       (VStr ("data:" ++ mime ++ ";base64," ++ body)) Sample.world
     = (put_result env (S (S (tick Sample.world))) key bytes (Some mime),
        mkWorld (rows Sample.world) (next_id Sample.world)
          (S (S (S (tick Sample.world))))
          (trace Sample.world ++ [EPut key bytes (Some mime)])).
Proof.
  cbv zeta. split; [split; reflexivity|].
  apply (upload_well_formed
           (Sample.env (Sample.always true) (Sample.always true))
           "image/png" "iVBORw0KGgo=" Sample.world);
    reflexivity.
Defined.

(* ------------------------------------------------------------------ *)
(** ** Create, every way it can end *)

(** A successful upload made exactly one [put], the one that resolved. *)
Lemma upload_ok_put (env : Env) (v : JsVal) (w w' : World) (url : string) :
  uploadBase64ToStorage env v w = (Ok url, w') ->
  exists key bytes mime,
    trace w' = (trace w ++ [EPut key bytes mime])%list
    /\ rows w' = rows w /\ next_id w' = next_id w
    /\ tick w' = S (S (S (tick w))).
Proof.
  unfold uploadBase64ToStorage, bind, lift, call, ret.
  destruct (checkFormat v) as [parts|e]; [|discriminate].
  cbn [tick rows next_id trace].
  destruct (put_result env _ _ _ _) as [u|e]; [|discriminate].
  intros H. injection H as _ <-. cbn [tick rows next_id trace].
  rewrite !app_nil_r. do 3 eexists. repeat split.
Qed.

Lemma post_produtos_run (env : Env) (body : CreateBody) (w : World) :
  truthy (body_nome body) = true -> truthy (body_imagem body) = true ->
  truthy (body_pdfDataUrl body) = true ->
  truthy (body_youtubeLink body) = true ->
  post_produtos env body w
  = match uploadBase64ToStorage env (body_imagem body) w with
    | (Throw e, w1) =>
        (Ok UploadFailed, logged "Erro no cadastro ou upload:" e w1)
    | (Ok url1, w1) =>
        match uploadBase64ToStorage env (body_pdfDataUrl body) w1 with
        | (Throw e, w2) =>
            (Ok UploadFailed, logged "Erro no cadastro ou upload:" e w2)
        | (Ok url2, w2) =>
            let q := Insert (body_nome body) (VStr url1) (VStr url2)
                       (body_youtubeLink body) in
            let tr := (trace w2 ++ [EQuery q])%list in
            match query_fault env (tick w2) q with
            | Some e =>
                (Ok UploadFailed,
                 logged "Erro no cadastro ou upload:" e
                   (mkWorld (rows w2) (next_id w2) (S (tick w2)) tr))
            | None =>
                let r := mkRow (next_id w2) (Db.sql_text env (body_nome body))
                           (Some url1) (Some url2)
                           (Db.sql_text env (body_youtubeLink body)) in
                (Ok (mkResponse 201 (JProduto (formatar r))),
                 mkWorld (rows w2 ++ [r]) (next_id w2 + 1) (S (tick w2)) tr)
            end
        end
    end.
Proof.
  intros Hn Hi Hp Hy. unfold post_produtos. rewrite Hn, Hi, Hp, Hy.
  cbn [negb orb]. unfold try_catch at 1. unfold bind at 1.
  destruct (uploadBase64ToStorage env (body_imagem body) w)
    as [[url1|e] w1]; [|reflexivity].
  unfold bind at 1.
  destruct (uploadBase64ToStorage env (body_pdfDataUrl body) w1)
    as [[url2|e] w2]; [|reflexivity].
  unfold bind at 1. rewrite query_run. cbv zeta.
  destruct (query_fault env (tick w2) _) as [e|]; reflexivity.
Qed.

Lemma post_produtos_cases (env : Env) (body : CreateBody) (w : World) :
  exists (resp : Response) (w' : World),
    post_produtos env body w = (Ok resp, w')
    /\ del_calls (trace w') = del_calls (trace w)
    /\ ((status resp = 201
         /\ exists r : Row,
              json resp = JProduto (formatar r) /\ id r = next_id w
              /\ rows w' = (rows w ++ [r])%list
              /\ next_id w' = next_id w + 1)
        \/ ((status resp = 400 \/ status resp = 500)
            /\ rows w' = rows w /\ next_id w' = next_id w)).
Proof.
  destruct (truthy (body_nome body) && truthy (body_imagem body)
            && truthy (body_pdfDataUrl body)
            && truthy (body_youtubeLink body)) eqn:Hall.
  - apply andb_true_iff in Hall. destruct Hall as [Hall Hy].
    apply andb_true_iff in Hall. destruct Hall as [Hall Hp].
    apply andb_true_iff in Hall. destruct Hall as [Hn Hi].
    rewrite (post_produtos_run env body w Hn Hi Hp Hy).
    pose proof (upload_frame env (body_imagem body) w) as F1.
    destruct (uploadBase64ToStorage env (body_imagem body) w)
      as [[url1|e] w1]; cbn [snd] in F1;
      destruct F1 as (R1 & N1 & ev1 & T1 & _ & D1 & _).
    + pose proof (upload_frame env (body_pdfDataUrl body) w1) as F2.
      destruct (uploadBase64ToStorage env (body_pdfDataUrl body) w1)
        as [[url2|e] w2]; cbn [snd] in F2;
        destruct F2 as (R2 & N2 & ev2 & T2 & _ & D2 & _).
      * cbv zeta.
        destruct (query_fault env (tick w2) _) as [e|];
          do 2 eexists; (split; [reflexivity|]);
          unfold logged; cbn [rows next_id trace status json];
          rewrite ?del_calls_app, T2, T1, !del_calls_app, D1, D2;
          cbn; rewrite ?app_nil_r; (split; [reflexivity|]).
        -- right. rewrite R2, R1, N2, N1. auto.
        -- left. split; [reflexivity|]. eexists.
           split; [reflexivity|]. cbn [id]. rewrite R2, R1, N2, N1. auto.
      * do 2 eexists. split; [reflexivity|].
        unfold logged; cbn [rows next_id trace status json].
        rewrite del_calls_app, T2, T1, !del_calls_app, D1, D2.
        cbn. rewrite ?app_nil_r. split; [reflexivity|].
        right. rewrite R2, R1, N2, N1. auto.
    + do 2 eexists. split; [reflexivity|].
      unfold logged; cbn [rows next_id trace status json].
      rewrite del_calls_app, T1, !del_calls_app, D1.
      cbn. rewrite ?app_nil_r. split; [reflexivity|].
      right. rewrite R1, N1. auto.
  - exists MissingField, w. split; [|split; [reflexivity|right; auto]].
    unfold post_produtos.
    destruct (truthy (body_nome body)); destruct (truthy (body_imagem body));
      destruct (truthy (body_pdfDataUrl body));
      destruct (truthy (body_youtubeLink body));
      try discriminate Hall; reflexivity.
Qed.

(** X3. With the four fields present, both uploads resolved and the
    insert answered, the create route answers 201 with the new product:
    its id is the one the repository assigned, its image and document
    fields are the URLs the blob store returned (never the payloads);
    the table gains exactly that row at its end, and the insert is the
    one query made, after the two uploads. *)
Theorem post_produtos_created (env : Env) (body : CreateBody)
  (w w1 w2 : World) (url1 url2 : string) :
  truthy (body_nome body) = true -> truthy (body_imagem body) = true ->
  truthy (body_pdfDataUrl body) = true ->
  truthy (body_youtubeLink body) = true ->
  uploadBase64ToStorage env (body_imagem body) w = (Ok url1, w1) ->
  uploadBase64ToStorage env (body_pdfDataUrl body) w1 = (Ok url2, w2) ->
  query_fault env (tick w2)
    (Insert (body_nome body) (VStr url1) (VStr url2) (body_youtubeLink body))
  = None ->
  let r := mkRow (next_id w) (Db.sql_text env (body_nome body))
             (Some url1) (Some url2)
             (Db.sql_text env (body_youtubeLink body)) in
  exists w' : World,
    post_produtos env body w
    = (Ok (mkResponse 201
             (JProduto
                (mkProduto (next_id w) (Db.sql_text env (body_nome body))
                   (Some url1) (Some url2)
                   (Db.sql_text env (body_youtubeLink body))))), w')
    /\ rows w' = (rows w ++ [r])%list
    /\ next_id w' = next_id w + 1
    /\ db_calls (trace w')
       = (db_calls (trace w)
          ++ [Insert (body_nome body) (VStr url1) (VStr url2)
                (body_youtubeLink body)])%list
    /\ List.length (put_calls (trace w'))
       = (2 + List.length (put_calls (trace w)))%nat
    /\ del_calls (trace w') = del_calls (trace w).
Proof.
  intros Hn Hi Hp Hy H1 H2 Hq r.
  rewrite (post_produtos_run env body w Hn Hi Hp Hy), H1, H2. cbv zeta.
  rewrite Hq.
  destruct (upload_ok_put env _ w w1 url1 H1)
    as (k1 & b1 & m1 & T1 & R1 & N1 & _).
  destruct (upload_ok_put env _ w1 w2 url2 H2)
    as (k2 & b2 & m2 & T2 & R2 & N2 & _).
  rewrite N2, N1, R2, R1, T2, T1.
  eexists. split; [reflexivity|].
  cbn [rows next_id trace].
  rewrite !db_calls_app, !put_calls_app, !del_calls_app. cbn.
  rewrite !app_nil_r, !length_app. cbn.
  repeat split. lia.
Qed.

Lemma post_produtos_created_witness :
  let env := Sample.env (Sample.always true) (Sample.always true) in
  let body := Sample.body "data:image/png;base64,iVBORw0KGgo=" in
  let url1 := Sample.url_of "1700000000000-i3z07l9.png" in
  let url2 := Sample.url_of "1700000000003-i3z07l9.pdf" in
  let w1 := snd (uploadBase64ToStorage env (body_imagem body) Sample.world) in
  let w2 := snd (uploadBase64ToStorage env (body_pdfDataUrl body) w1) in
  (uploadBase64ToStorage env (body_imagem body) Sample.world = (Ok url1, w1)
   /\ uploadBase64ToStorage env (body_pdfDataUrl body) w1 = (Ok url2, w2))
  /\ exists w' : World,
       post_produtos env body Sample.world
       = (Ok (mkResponse 201
                (JProduto
                   (mkProduto 13 (Some "Widget") (Some url1) (Some url2)
                      (Some "https://youtu.be/x")))), w')
       /\ rows w'
          = (rows Sample.world
             ++ [mkRow 13 (Some "Widget") (Some url1) (Some url2)
                   (Some "https://youtu.be/x")])%list
       /\ next_id w' = 13 + 1
       /\ db_calls (trace w')
          = (db_calls (trace Sample.world)
             ++ [Insert (VStr "Widget") (VStr url1) (VStr url2)
                   (VStr "https://youtu.be/x")])%list
       /\ List.length (put_calls (trace w'))
          = (2 + List.length (put_calls (trace Sample.world)))%nat
       /\ del_calls (trace w') = del_calls (trace Sample.world).
Proof.
  cbv zeta. split; [split; reflexivity|].
  apply (post_produtos_created
           (Sample.env (Sample.always true) (Sample.always true))
           (Sample.body "data:image/png;base64,iVBORw0KGgo=")
           Sample.world
           (snd (uploadBase64ToStorage
                   (Sample.env (Sample.always true) (Sample.always true))
                   (VStr "data:image/png;base64,iVBORw0KGgo=")
                   Sample.world))
           (snd (uploadBase64ToStorage
                   (Sample.env (Sample.always true) (Sample.always true))
                   (VStr "data:application/pdf;base64,JVBERi0=")
                   (snd (uploadBase64ToStorage
                           (Sample.env (Sample.always true)
                              (Sample.always true))
                           (VStr "data:image/png;base64,iVBORw0KGgo=")
                           Sample.world))))
           (Sample.url_of "1700000000000-i3z07l9.png")
           (Sample.url_of "1700000000003-i3z07l9.pdf"));
    reflexivity.
Defined.

(** X4. When both uploads resolved and the insert is rejected, the
    create route answers the 500 error; the table and the id counter are
    as before, while the two objects have been stored and no [del] is
    issued for them: they stay in the blob store without a row. *)
Theorem post_produtos_insert_rejected (env : Env) (body : CreateBody)
  (w w1 w2 : World) (url1 url2 : string) (e : JsError) :
  truthy (body_nome body) = true -> truthy (body_imagem body) = true ->
  truthy (body_pdfDataUrl body) = true ->
  truthy (body_youtubeLink body) = true ->
  uploadBase64ToStorage env (body_imagem body) w = (Ok url1, w1) ->
  uploadBase64ToStorage env (body_pdfDataUrl body) w1 = (Ok url2, w2) ->
  query_fault env (tick w2)
    (Insert (body_nome body) (VStr url1) (VStr url2) (body_youtubeLink body))
  = Some e ->
  exists w' : World,
    post_produtos env body w = (Ok UploadFailed, w')
    /\ rows w' = rows w /\ next_id w' = next_id w
    /\ List.length (put_calls (trace w'))
       = (2 + List.length (put_calls (trace w)))%nat
    /\ del_calls (trace w') = del_calls (trace w).
Proof.
  intros Hn Hi Hp Hy H1 H2 Hq.
  rewrite (post_produtos_run env body w Hn Hi Hp Hy), H1, H2. cbv zeta.
  rewrite Hq.
  destruct (upload_ok_put env _ w w1 url1 H1)
    as (k1 & b1 & m1 & T1 & R1 & N1 & _).
  destruct (upload_ok_put env _ w1 w2 url2 H2)
    as (k2 & b2 & m2 & T2 & R2 & N2 & _).
  eexists. split; [reflexivity|].
  unfold logged. cbn [rows next_id trace]. rewrite R2, R1, N2, N1, T2, T1.
  rewrite !put_calls_app, !del_calls_app. cbn.
  rewrite !app_nil_r, !length_app. cbn.
  repeat split. lia.
Qed.

Lemma post_produtos_insert_rejected_witness :
  let env :=
    with_database (Sample.env (Sample.always true) (Sample.always true))
      (Sample.always false) in
  let body := Sample.body "data:image/png;base64,iVBORw0KGgo=" in
  let url1 := Sample.url_of "1700000000000-i3z07l9.png" in
  let url2 := Sample.url_of "1700000000003-i3z07l9.pdf" in
  let w1 := snd (uploadBase64ToStorage env (body_imagem body) Sample.world) in
  let w2 := snd (uploadBase64ToStorage env (body_pdfDataUrl body) w1) in
  (uploadBase64ToStorage env (body_imagem body) Sample.world = (Ok url1, w1)
   /\ uploadBase64ToStorage env (body_pdfDataUrl body) w1 = (Ok url2, w2)
   /\ query_fault env (tick w2)
        (Insert (body_nome body) (VStr url1) (VStr url2)
           (body_youtubeLink body))
      = Some (Error "connection refused"))
  /\ exists w' : World,
       post_produtos env body Sample.world = (Ok UploadFailed, w')
       /\ rows w' = rows Sample.world /\ next_id w' = next_id Sample.world
       /\ List.length (put_calls (trace w'))
          = (2 + List.length (put_calls (trace Sample.world)))%nat
       /\ del_calls (trace w') = del_calls (trace Sample.world).
Proof.
  cbv zeta. split; [repeat split|].
  apply (post_produtos_insert_rejected
           (with_database
              (Sample.env (Sample.always true) (Sample.always true))
              (Sample.always false))
           (Sample.body "data:image/png;base64,iVBORw0KGgo=")
           Sample.world
           (snd (uploadBase64ToStorage
                   (Sample.env (Sample.always true) (Sample.always true))
                   (VStr "data:image/png;base64,iVBORw0KGgo=")
                   Sample.world))
           (snd (uploadBase64ToStorage
                   (Sample.env (Sample.always true) (Sample.always true))
                   (VStr "data:application/pdf;base64,JVBERi0=")
                   (snd (uploadBase64ToStorage
                           (Sample.env (Sample.always true)
                              (Sample.always true))
                           (VStr "data:image/png;base64,iVBORw0KGgo=")
                           Sample.world))))
           (Sample.url_of "1700000000000-i3z07l9.png")
           (Sample.url_of "1700000000003-i3z07l9.pdf")
           (Error "connection refused"));
    reflexivity.
Defined.

(** X5. With the four fields present, an image payload that is not a
    string of the decoder's shape (for instance a number, or a string
    without the [data:] prefix) makes the create route answer the 500
    error, not the 400 one, and the only thing that happened is the
    logging of the error: no clock read, no [put], no query, and the
    document payload is not looked at. *)
Theorem post_produtos_ill_formed_image (env : Env) (body : CreateBody)
  (w : World) :
  truthy (body_nome body) = true -> truthy (body_imagem body) = true ->
  truthy (body_pdfDataUrl body) = true ->
  truthy (body_youtubeLink body) = true ->
  (forall s, body_imagem body = VStr s -> ~ wellFormed s) ->
  exists e : JsError,
    post_produtos env body w
    = (Ok UploadFailed, logged "Erro no cadastro ou upload:" e w).
Proof.
  intros Hn Hi Hp Hy Hill.
  destruct (checkFormat_ill_formed (body_imagem body) Hill) as [e He].
  exists e. rewrite (post_produtos_run env body w Hn Hi Hp Hy).
  unfold uploadBase64ToStorage at 1. unfold bind at 1. unfold lift at 1.
  rewrite He. reflexivity.
Qed.

Lemma post_produtos_ill_formed_image_witness :
  let env := Sample.env (Sample.always true) (Sample.always true) in
  let body :=
    mkCreateBody (VStr "Widget") (VNum (JInt 7))
      (VStr "data:application/pdf;base64,JVBERi0=")
      (VStr "https://youtu.be/x") in
  (forall s, body_imagem body = VStr s -> ~ wellFormed s)
  /\ exists e : JsError,
       post_produtos env body Sample.world
       = (Ok UploadFailed,
          logged "Erro no cadastro ou upload:" e Sample.world).
Proof.
  cbv zeta.
  assert (H : forall s, VNum (JInt 7) = VStr s -> ~ wellFormed s).
  { intros s Hs. discriminate Hs. }
  split; [exact H|].
  apply (post_produtos_ill_formed_image
           (Sample.env (Sample.always true) (Sample.always true))
           (mkCreateBody (VStr "Widget") (VNum (JInt 7))
              (VStr "data:application/pdf;base64,JVBERi0=")
              (VStr "https://youtu.be/x"))
           Sample.world);
    try reflexivity.
  exact H.
Defined.

(** X6. A request to the create route ends in one of two ways.  Without
    a parsed body ([req.body] undefined) the handler throws a TypeError
    at the destructuring of line 79, before its [try]: it answers
    nothing itself and nothing outside is touched.  With a parsed body,
    whatever it holds and whatever the outside answers, the handler does
    not throw: it answers 201, 400 or 500, never calls [del], never
    changes or removes an existing row, and the table gains a row, the
    product returned, exactly when the answer is 201. *)
Theorem post_produtos_outcomes (env : Env) (req_body : option CreateBody)
  (w : World) :
  match req_body with
  | None =>
      exists msg : string,
        post_produtos_request env None w = (Throw (TypeError msg), w)
  | Some body =>
      exists (resp : Response) (w' : World),
        post_produtos_request env (Some body) w = (Ok resp, w')
        /\ del_calls (trace w') = del_calls (trace w)
        /\ ((status resp = 201
             /\ exists r : Row,
                  json resp = JProduto (formatar r) /\ id r = next_id w
                  /\ rows w' = (rows w ++ [r])%list)
            \/ ((status resp = 400 \/ status resp = 500)
                /\ rows w' = rows w))
  end.
Proof.
  destruct req_body as [body|]; [|eexists; reflexivity].
  cbn [post_produtos_request].
  destruct (post_produtos_cases env body w)
    as (resp & w' & Hrun & Hdel & Hcases).
  exists resp, w'. split; [exact Hrun|]. split; [exact Hdel|].
  destruct Hcases as [(Hs & r & Hj & Hid & Hr & _) | (Hs & Hr & _)].
  - left. split; [exact Hs|]. exists r. auto.
  - right. auto.
Qed.

(* ------------------------------------------------------------------ *)
(** ** List, every way it can end *)

(** X7. The list route does not throw and only reads: whatever the
    database answers, the table and the id counter are as before, no
    [put] and no [del] is made and the one query is the select.  It
    answers 200 when the query is answered and otherwise the 500 error,
    after logging what the query rejected with. *)
Theorem get_produtos_read_only (env : Env) (w : World) :
  exists (resp : Response) (w' : World),
    get_produtos env w = (Ok resp, w')
    /\ rows w' = rows w /\ next_id w' = next_id w
    /\ put_calls (trace w') = put_calls (trace w)
    /\ del_calls (trace w') = del_calls (trace w)
    /\ db_calls (trace w') = (db_calls (trace w) ++ [SelectAll])%list
    /\ match query_fault env (tick w) SelectAll with
       | None => status resp = 200
       | Some e =>
           resp = mkResponse 500
                    (JError "Erro interno ao consultar o catálogo.")
           /\ trace w'
              = (trace w
                 ++ [EQuery SelectAll;
                     EConsoleError "Erro ao consultar o banco de dados:" e])%list
       end.
Proof.
  unfold get_produtos, try_catch. unfold bind at 1. rewrite query_run.
  destruct (query_fault env (tick w) SelectAll) as [e|].
  - do 2 eexists. split; [reflexivity|].
    cbn [rows next_id trace]. rewrite <- app_assoc.
    rewrite put_calls_app, del_calls_app, db_calls_app. cbn.
    rewrite !app_nil_r. repeat split.
  - do 2 eexists. split; [reflexivity|].
    cbn [rows next_id trace status].
    rewrite put_calls_app, del_calls_app, db_calls_app. cbn.
    rewrite !app_nil_r. repeat split.
Qed.

(* ------------------------------------------------------------------ *)
(** ** Delete, every way it can end *)

Lemma looksLikeUrl_http (u : string) :
  looksLikeUrl (Some u) = JsString.startsWith "http" u.
Proof. destruct u; reflexivity. Qed.

(** X8. The urls handed to [del] are exactly the image and document
    columns that hold a string starting with [http], image first; a NULL
    column, an empty one or any other text is passed over, so at most
    two deletions are attempted. *)
Theorem urlsToDelete_spec (i p : option string) :
  (forall u : string,
     In u (urlsToDelete i p)
     <-> (i = Some u \/ p = Some u) /\ JsString.startsWith "http" u = true)
  /\ (List.length (urlsToDelete i p) <= 2)%nat
  /\ (forall a b : string,
        JsString.startsWith "http" a = true ->
        JsString.startsWith "http" b = true ->
        urlsToDelete (Some a) (Some b) = [a; b]).
Proof.
  split; [|split].
  - intros u. unfold urlsToDelete. cbn [filter].
    destruct i as [a|], p as [b|]; rewrite ?looksLikeUrl_http;
      cbn [looksLikeUrl];
      repeat match goal with
             | |- context [JsString.startsWith "http" ?x] =>
                 destruct (JsString.startsWith "http" x) eqn:?
             end;
      cbn; split;
      try (intros [H|H]; [subst|]); try (intros [[H|H] H']);
      try (intros [H|[H|H]]; subst);
      try injection H as H; subst; intuition (try congruence).
  - unfold urlsToDelete. cbn [filter].
    destruct (looksLikeUrl i), (looksLikeUrl p), i, p; cbn; lia.
  - intros a b Ha Hb. unfold urlsToDelete. cbn [filter].
    rewrite !looksLikeUrl_http, Ha, Hb. reflexivity.
Qed.

Lemma urlsToDelete_http (i p : option string) :
  Forall (fun u => JsString.startsWith "http" u = true) (urlsToDelete i p).
Proof.
  unfold urlsToDelete. cbn [filter].
  destruct i as [a|], p as [b|]; rewrite ?looksLikeUrl_http;
    cbn [looksLikeUrl];
    repeat match goal with
           | |- context [JsString.startsWith "http" ?x] =>
               destruct (JsString.startsWith "http" x) eqn:?
           end;
    cbn; repeat constructor; assumption.
Qed.

Lemma delete_blobs_no_put (env : Env) (urls : list string) :
  forall w : World,
    put_calls (trace (snd (delete_blobs env urls w))) = put_calls (trace w).
Proof.
  induction urls as [|url rest IH]; intros w; [reflexivity|].
  cbn [delete_blobs]. unfold bind at 1. unfold try_catch, bind, call, lift.
  destruct (del_result env (tick w) url) as [[]|fileErr].
  - rewrite IH. cbn [trace]. rewrite put_calls_app. cbn.
    apply app_nil_r.
  - unfold console_warn. cbn [rows next_id tick trace].
    rewrite IH. cbn [trace]. rewrite !put_calls_app. cbn.
    rewrite !app_nil_r. reflexivity.
Qed.

Lemma delete_by_id_run (env : Env) (i : JsNum) (w : World) :
  let w1 := mkWorld (rows w) (next_id w) (S (tick w))
              (trace w ++ [EQuery (SelectById i)]) in
  let w2 := mkWorld (filter (fun x => negb (Db.id_is i x)) (rows w))
              (next_id w) (S (S (tick w)))
              (trace w ++ [EQuery (SelectById i); EQuery (DeleteById i)]) in
  delete_by_id env i w
  = match query_fault env (tick w) (SelectById i) with
    | Some e =>
        (Ok InternalError, logged "Erro na exclusão do produto:" e w1)
    | None =>
        match filter (Db.id_is i) (rows w) with
        | [] => (Ok NotFound, w1)
        | r :: _ =>
            match query_fault env (S (tick w)) (DeleteById i) with
            | Some e =>
                (Ok InternalError,
                 logged "Erro na exclusão do produto:" e
                   (mkWorld (rows w) (next_id w) (S (S (tick w)))
                      (trace w
                       ++ [EQuery (SelectById i); EQuery (DeleteById i)])))
            | None =>
                (Ok (Deleted i),
                 snd (delete_blobs env
                        (urlsToDelete (imagem_url r) (pdf_url r)) w2))
            end
        end
    end.
Proof.
  cbv zeta. unfold delete_by_id, try_catch. unfold bind at 1.
  rewrite query_run.
  destruct (query_fault env (tick w) (SelectById i)) as [e|]; [reflexivity|].
  cbn [Db.execute].
  destruct (filter (Db.id_is i) (rows w)) as [|r found] eqn:Hf;
    [reflexivity|].
  cbn [Db.rowCount Db.result_rows List.length Nat.eqb].
  unfold bind at 1. rewrite query_run. cbn [tick rows next_id trace].
  destruct (query_fault env (S (tick w)) (DeleteById i)) as [e|].
  - rewrite <- app_assoc. reflexivity.
  - cbn [Db.execute]. unfold bind at 1. rewrite <- app_assoc.
    cbn [app].
    match goal with |- context [delete_blobs env ?urls ?w1] =>
      destruct (delete_blobs_run env urls w1) as (w' & Hrun & _)
    end.
    rewrite Hrun. reflexivity.
Qed.

Lemma delete_by_id_cases (env : Env) (i : JsNum) (w : World) :
  exists (resp : Response) (w' : World),
    delete_by_id env i w = (Ok resp, w')
    /\ next_id w' = next_id w
    /\ put_calls (trace w') = put_calls (trace w)
    /\ ((resp = Deleted i
         /\ rows w' = filter (fun x => negb (Db.id_is i x)) (rows w)
         /\ db_calls (trace w')
            = (db_calls (trace w) ++ [SelectById i; DeleteById i])%list
         /\ exists r found,
              filter (Db.id_is i) (rows w) = r :: found
              /\ del_calls (trace w')
                 = (del_calls (trace w)
                    ++ urlsToDelete (imagem_url r) (pdf_url r))%list)
        \/ ((resp = NotFound \/ resp = InternalError)
            /\ rows w' = rows w
            /\ del_calls (trace w') = del_calls (trace w))).
Proof.
  pose proof (delete_by_id_run env i w) as Hrun. cbv zeta in Hrun.
  destruct (query_fault env (tick w) (SelectById i)) as [e|].
  - do 2 eexists. split; [exact Hrun|].
    unfold logged. cbn [rows next_id trace].
    rewrite !put_calls_app, !del_calls_app. cbn. rewrite !app_nil_r.
    split; [reflexivity|]. split; [reflexivity|]. right. auto.
  - destruct (filter (Db.id_is i) (rows w)) as [|r found] eqn:Hf.
    + do 2 eexists. split; [exact Hrun|]. cbn [rows next_id trace].
      rewrite !put_calls_app, !del_calls_app. cbn. rewrite !app_nil_r.
      split; [reflexivity|]. split; [reflexivity|]. right. auto.
    + destruct (query_fault env (S (tick w)) (DeleteById i)) as [e|].
      * do 2 eexists. split; [exact Hrun|].
        unfold logged. cbn [rows next_id trace].
        rewrite !put_calls_app, !del_calls_app. cbn. rewrite !app_nil_r.
        split; [reflexivity|]. split; [reflexivity|]. right. auto.
      * do 2 eexists. split; [exact Hrun|].
        rewrite delete_blobs_no_put.
        match goal with |- context [delete_blobs env ?urls ?w2] =>
          destruct (delete_blobs_run env urls w2)
            as (w' & Hb & Hr & Hn & Hd & Hq)
        end.
        rewrite Hb. cbn [snd]. rewrite Hr, Hn, Hd, Hq.
        cbn [rows next_id trace].
        rewrite !put_calls_app, !del_calls_app, !db_calls_app. cbn.
        rewrite !app_nil_r.
        split; [reflexivity|]. split; [reflexivity|]. left.
        split; [reflexivity|]. split; [reflexivity|].
        split; [reflexivity|]. exists r, found. split; reflexivity.
Qed.

(** X9. Whatever the id parameter and whatever the outside answers, the
    delete route does not throw: it answers 200, 404 or 500.  It never
    calls [put] and never inserts; rows leave the table, those of the
    parsed id and no others, exactly when the answer is 200, and only
    then is any [del] attempted, each on a url starting with [http]. *)
Theorem delete_produtos_outcomes (env : Env) (param_id : string)
  (w : World) :
  let i := ParseInt.parseInt param_id in
  exists (resp : Response) (w' : World),
    delete_produtos env param_id w = (Ok resp, w')
    /\ next_id w' = next_id w
    /\ put_calls (trace w') = put_calls (trace w)
    /\ ((status resp = 200
         /\ rows w' = filter (fun x => negb (Db.id_is i x)) (rows w)
         /\ db_calls (trace w')
            = (db_calls (trace w) ++ [SelectById i; DeleteById i])%list
         /\ exists urls,
              del_calls (trace w') = (del_calls (trace w) ++ urls)%list
              /\ Forall (fun u => JsString.startsWith "http" u = true) urls)
        \/ ((status resp = 404 \/ status resp = 500)
            /\ rows w' = rows w
            /\ del_calls (trace w') = del_calls (trace w))).
Proof.
  intros i. unfold delete_produtos. fold i.
  destruct (delete_by_id_cases env i w)
    as (resp & w' & Hrun & Hn & Hp & Hcases).
  exists resp, w'. split; [exact Hrun|]. split; [exact Hn|].
  split; [exact Hp|].
  destruct Hcases as [(-> & Hr & Hq & r & found & _ & Hd) | (Hs & Hr & Hd)].
  - left. split; [reflexivity|]. split; [exact Hr|]. split; [exact Hq|].
    exists (urlsToDelete (imagem_url r) (pdf_url r)).
    split; [exact Hd | apply urlsToDelete_http].
  - right. split; [|auto].
    destruct Hs as [-> | ->]; [left | right]; reflexivity.
Qed.

(** X10. When the select query is rejected, or a row is found and the
    delete query is rejected, the delete route answers the 500 error:
    the table is as before and no [del] is made, so a product never
    loses its files while its row stays. *)
Theorem delete_produtos_query_rejected (env : Env) (param_id : string)
  (w : World) (e : JsError) :
  let i := ParseInt.parseInt param_id in
  query_fault env (tick w) (SelectById i) = Some e
  \/ (query_fault env (tick w) (SelectById i) = None
      /\ filter (Db.id_is i) (rows w) <> []
      /\ query_fault env (S (tick w)) (DeleteById i) = Some e) ->
  exists w' : World,
    delete_produtos env param_id w = (Ok InternalError, w')
    /\ status InternalError = 500
    /\ rows w' = rows w
    /\ del_calls (trace w') = del_calls (trace w)
    /\ last (trace w') (EDel "")
       = EConsoleError "Erro na exclusão do produto:" e.
Proof.
  intros i H. unfold delete_produtos. fold i.
  pose proof (delete_by_id_run env i w) as Hrun. cbv zeta in Hrun.
  destruct H as [Hsel | (Hsel & Hfound & Hdel)]; rewrite Hsel in Hrun.
  - eexists. split; [exact Hrun|]. unfold logged. cbn [rows trace].
    rewrite !del_calls_app, last_last. cbn. rewrite !app_nil_r.
    repeat split.
  - destruct (filter (Db.id_is i) (rows w)) as [|r found];
      [contradiction|].
    rewrite Hdel in Hrun.
    eexists. split; [exact Hrun|]. unfold logged. cbn [rows trace].
    rewrite !del_calls_app, last_last. cbn. rewrite !app_nil_r.
    repeat split.
Qed.

Lemma delete_produtos_query_rejected_witness :
  let env :=
    with_database (Sample.env (Sample.always true) (Sample.always true))
      (fun t => Nat.eqb t 0) in
  let i := ParseInt.parseInt "7" in
  let e := Error "connection refused" in
  (query_fault env (tick Sample.world) (SelectById i) = None
   /\ filter (Db.id_is i) (rows Sample.world) <> []
   /\ query_fault env (S (tick Sample.world)) (DeleteById i) = Some e)
  /\ exists w' : World,
       delete_produtos env "7" Sample.world = (Ok InternalError, w')
       /\ status InternalError = 500
       /\ rows w' = rows Sample.world
       /\ del_calls (trace w') = del_calls (trace Sample.world)
       /\ last (trace w') (EDel "")
          = EConsoleError "Erro na exclusão do produto:" e.
Proof.
  cbv zeta.
  assert (H : query_fault
                (with_database
                   (Sample.env (Sample.always true) (Sample.always true))
                   (fun t => Nat.eqb t 0))
                (tick Sample.world) (SelectById (ParseInt.parseInt "7"))
              = None
              /\ filter (Db.id_is (ParseInt.parseInt "7")) (rows Sample.world)
                 <> []
              /\ query_fault
                   (with_database
                      (Sample.env (Sample.always true) (Sample.always true))
                      (fun t => Nat.eqb t 0))
                   (S (tick Sample.world))
                   (DeleteById (ParseInt.parseInt "7"))
                 = Some (Error "connection refused")).
  { split; [reflexivity|]. split; [discriminate | reflexivity]. }
  split; [exact H|].
  apply (delete_produtos_query_rejected
           (with_database
              (Sample.env (Sample.always true) (Sample.always true))
              (fun t => Nat.eqb t 0))
           "7" Sample.world (Error "connection refused")).
  right. exact H.
Defined.

Lemma filter_twice_none {A : Type} (f : A -> bool) (l : list A) :
  filter f (filter (fun x => negb (f x)) l) = [].
Proof.
  apply filter_none. apply filter_negb_none.
Qed.

(** X11. Deleting is not repeatable: after the delete route has
    answered 200 for an id parameter, the same request, with its select
    answered, gets 404; the table is not changed again and no further
    [del] is attempted. *)
Theorem delete_produtos_twice (env : Env) (param_id : string)
  (w w' : World) (resp : Response) :
  delete_produtos env param_id w = (Ok resp, w') ->
  status resp = 200 ->
  query_fault env (tick w') (SelectById (ParseInt.parseInt param_id))
  = None ->
  exists w'' : World,
    delete_produtos env param_id w' = (Ok NotFound, w'')
    /\ status NotFound = 404
    /\ rows w'' = rows w'
    /\ del_calls (trace w'') = del_calls (trace w').
Proof.
  unfold delete_produtos. set (i := ParseInt.parseInt param_id).
  intros Hrun Hs Hsel.
  destruct (delete_by_id_cases env i w)
    as (resp0 & w0 & Hrun0 & _ & _ & Hcases).
  rewrite Hrun in Hrun0. injection Hrun0 as <- <-.
  destruct Hcases as [(_ & Hr & _) | ([-> | ->] & _)];
    [|discriminate Hs|discriminate Hs].
  pose proof (delete_by_id_run env i w') as Hrun'. cbv zeta in Hrun'.
  rewrite Hsel, Hr, filter_twice_none in Hrun'.
  eexists. split; [rewrite <- Hr in Hrun'; exact Hrun'|].
  cbn [rows trace]. rewrite del_calls_app. cbn. rewrite app_nil_r.
  repeat split.
Qed.

Lemma delete_produtos_twice_witness :
  let env := Sample.env (Sample.always true) (Sample.always true) in
  let resp := Deleted (JInt 12) in
  let w' := snd (delete_produtos env "12" Sample.world) in
  (delete_produtos env "12" Sample.world = (Ok resp, w')
   /\ status resp = 200
   /\ query_fault env (tick w') (SelectById (ParseInt.parseInt "12")) = None)
  /\ exists w'' : World,
       delete_produtos env "12" w' = (Ok NotFound, w'')
       /\ status NotFound = 404
       /\ rows w'' = rows w'
       /\ del_calls (trace w'') = del_calls (trace w').
Proof.
  cbv zeta. split; [repeat split|].
  apply (delete_produtos_twice
           (Sample.env (Sample.always true) (Sample.always true))
           "12" Sample.world
           (snd (delete_produtos
                   (Sample.env (Sample.always true) (Sample.always true))
                   "12" Sample.world))
           (Deleted (JInt 12)));
    reflexivity.
Defined.

(* ------------------------------------------------------------------ *)
(** ** An id written in decimal parses back *)

Section DecimalIds.

Lemma digits_string_of_uint (d : Decimal.uint) :
  LeadingDecimal.digits (NilEmpty.string_of_uint d) = uint_digits d.
Proof.
  induction d; cbn [NilEmpty.string_of_uint uint_digits];
    [reflexivity | ..];
    cbn [LeadingDecimal.digits]; rewrite IHd; reflexivity.
Qed.

Lemma allDecimal_string_of_uint (d : Decimal.uint) :
  allDecimal (NilEmpty.string_of_uint d) = true.
Proof.
  induction d; cbn [NilEmpty.string_of_uint]; [reflexivity | ..];
    cbn [allDecimal]; exact IHd.
Qed.

Lemma value_of_uint_acc (d : Decimal.uint) :
  forall acc : positive,
    LeadingDecimal.value (Z.pos acc) (uint_digits d)
    = Z.pos (Pos.of_uint_acc d acc).
Proof.
  induction d; intros acc;
    cbn [uint_digits LeadingDecimal.value Pos.of_uint_acc];
    [reflexivity | ..];
    rewrite <- IHd; f_equal; lia.
Qed.

Lemma value_of_uint (d : Decimal.uint) :
  LeadingDecimal.value 0 (uint_digits d) = Z.of_N (Pos.of_uint d).
Proof.
  induction d; cbn [uint_digits LeadingDecimal.value Pos.of_uint];
    [reflexivity | exact IHd | ..];
    apply value_of_uint_acc.
Qed.

Lemma decimal_char (c : ascii) :
  LeadingDecimal.decimalDigit c <> None ->
  ParseInt.isWhiteSpace c = false
  /\ ParseInt.dropSign (String c "") = (false, String c "")
  /\ Ascii.eqb c "x" = false /\ Ascii.eqb c "X" = false.
Proof.
  destruct c as [[] [] [] [] [] [] [] []]; intros H;
    try (exfalso; apply H; reflexivity); repeat split.
Qed.

Lemma decimal_string_unsigned (s : string) :
  allDecimal s = true ->
  ParseInt.trimStart s = s
  /\ ParseInt.dropSign s = (false, s)
  /\ ParseInt.hexPrefixed s = false.
Proof.
  destruct s as [|c s]; intros H; [repeat split|].
  cbn [allDecimal] in H.
  destruct (LeadingDecimal.decimalDigit c) as [v|] eqn:Hc; [|discriminate H].
  assert (Hne : LeadingDecimal.decimalDigit c <> None) by congruence.
  destruct (decimal_char c Hne) as (Hw & Hsign & _ & _).
  split; [|split].
  - cbn [ParseInt.trimStart]. rewrite Hw. reflexivity.
  - unfold ParseInt.dropSign in *.
    destruct c as [[] [] [] [] [] [] [] []]; try discriminate Hsign;
      reflexivity.
  - unfold ParseInt.hexPrefixed, JsString.startsWith. cbn [String.prefix].
    destruct s as [|c2 s]; [destruct (ascii_dec "0" c); reflexivity|].
    cbn [allDecimal] in H.
    destruct (LeadingDecimal.decimalDigit c2) as [v2|] eqn:Hc2;
      [|discriminate H].
    assert (Hne2 : LeadingDecimal.decimalDigit c2 <> None) by congruence.
    destruct (decimal_char c2 Hne2) as (_ & _ & Hx & HX).
    destruct (ascii_dec "0" c); [|reflexivity].
    cbn [String.prefix].
    destruct (ascii_dec "x" c2) as [<-|_]; [discriminate Hx|].
    destruct (ascii_dec "X" c2) as [<-|_]; [discriminate HX|].
    reflexivity.
Qed.

Lemma parseInt_decimal_string (s : string) :
  allDecimal s = true ->
  ParseInt.parseInt s
  = match LeadingDecimal.digits s with
    | [] => JNaN
    | ds => Number.ofNat (LeadingDecimal.value 0 ds)
    end
  /\ ParseInt.parseInt (String "-" s)
     = match LeadingDecimal.digits s with
       | [] => JNaN
       | ds => Number.neg (Number.ofNat (LeadingDecimal.value 0 ds))
       end.
Proof.
  intros H. destruct (decimal_string_unsigned s H) as (Ht & Hs & Hx).
  split.
  - rewrite parseInt_decimal;
      unfold LeadingDecimal.unsignedPart, LeadingDecimal.negative;
      rewrite Ht, Hs; cbn [fst snd]; [|exact Hx].
    destruct (LeadingDecimal.digits s); reflexivity.
  - assert (Hu : LeadingDecimal.unsignedPart (String "-" s) = s)
      by reflexivity.
    assert (Hn : LeadingDecimal.negative (String "-" s) = true)
      by reflexivity.
    rewrite parseInt_decimal; rewrite Hu; [|exact Hx]. rewrite Hn.
    destruct (LeadingDecimal.digits s); reflexivity.
Qed.

Lemma to_uint_digits (p : positive) :
  NilZero.string_of_uint (Pos.to_uint p)
  = NilEmpty.string_of_uint (Pos.to_uint p)
  /\ uint_digits (Pos.to_uint p) <> []
  /\ LeadingDecimal.value 0 (uint_digits (Pos.to_uint p)) = Z.pos p.
Proof.
  pose proof (Unsigned.of_to p) as Hp.
  pose proof (value_of_uint (Pos.to_uint p)) as Hv.
  rewrite Hp in Hv. cbn [Z.of_N] in Hv.
  destruct (Pos.to_uint p); [discriminate Hp | ..];
    (split; [reflexivity | split; [discriminate | exact Hv]]).
Qed.

(** The id as a client writes it in the path, from the number it was
    given, is read back by the delete route as the same id. *)
Lemma parseInt_toString_id (z : Z) :
  Z.abs z < 2 ^ 53 ->
  ParseInt.parseInt (Number.toString (JInt z)) = JInt z.
Proof.
  intros Hz. destruct z as [|p|p]; [reflexivity | |].
  - cbn [Number.toString Z.to_int NilZero.string_of_int].
    destruct (to_uint_digits p) as (Hs & Hne & Hv). rewrite Hs.
    destruct (parseInt_decimal_string _
                (allDecimal_string_of_uint (Pos.to_uint p))) as [Hp _].
    rewrite Hp, digits_string_of_uint.
    destruct (uint_digits (Pos.to_uint p)) as [|d ds] eqn:E;
      [contradiction|].
    rewrite Hv. apply ofNat_exact. lia.
  - cbn [Number.toString Z.to_int NilZero.string_of_int].
    destruct (to_uint_digits p) as (Hs & Hne & Hv). rewrite Hs.
    destruct (parseInt_decimal_string _
                (allDecimal_string_of_uint (Pos.to_uint p))) as [_ Hn].
    rewrite Hn, digits_string_of_uint.
    destruct (uint_digits (Pos.to_uint p)) as [|d ds] eqn:E;
      [contradiction|].
    rewrite Hv, ofNat_exact by lia. reflexivity.
Qed.

End DecimalIds.

(* ------------------------------------------------------------------ *)
(** ** Delete of an existing id *)

Section Cleanup.

(** The clean-up loop always completes, and leaves exactly the calls
    and warnings of [cleanup_events]. *)
Lemma delete_blobs_trace (env : Env) (urls : list string) :
  forall w : World,
    delete_blobs env urls w
    = (Ok tt,
       mkWorld (rows w) (next_id w) (List.length urls + tick w)
         (trace w ++ cleanup_events env (tick w) urls)).
Proof.
  induction urls as [|url rest IH]; intros w.
  - destruct w. cbn. rewrite app_nil_r. reflexivity.
  - cbn [delete_blobs cleanup_events List.length].
    unfold bind at 1. unfold try_catch, bind, call, lift.
    destruct (del_result env (tick w) url) as [[]|fileErr].
    + rewrite IH. cbn [rows next_id tick trace].
      rewrite Nat.add_succ_r, <- app_assoc. reflexivity.
    + unfold console_warn. cbn [rows next_id tick trace].
      rewrite IH. cbn [rows next_id tick trace].
      rewrite Nat.add_succ_r, <- !app_assoc. reflexivity.
Qed.

Lemma cleanup_events_dels (env : Env) (urls : list string) :
  forall t : nat, del_calls (cleanup_events env t urls) = urls.
Proof.
  induction urls as [|url rest IH]; intros t; [reflexivity|].
  cbn [cleanup_events].
  change (del_calls (EDel url :: ?l)) with (url :: del_calls l).
  rewrite del_calls_app, IH.
  destruct (del_result env t url); reflexivity.
Qed.

Lemma cleanup_events_warns (env : Env) (urls : list string) :
  forall (t k : nat) (url : string) (e : JsError),
    nth_error urls k = Some url ->
    del_result env (k + t) url = Throw e ->
    In (EConsoleWarn url (message e)) (cleanup_events env t urls).
Proof.
  induction urls as [|u rest IH]; intros t k url e Hk Hdel.
  - destruct k; discriminate Hk.
  - cbn [cleanup_events]. right. apply in_or_app.
    destruct k as [|k].
    + cbn in Hk. injection Hk as ->. cbn [Nat.add] in Hdel.
      rewrite Hdel. left. left. reflexivity.
    + cbn [nth_error] in Hk. right. apply (IH (S t) k url e Hk).
      rewrite Nat.add_succ_r. exact Hdel.
Qed.

End Cleanup.

(** C2. For every id n that a row of the table has, and a request whose
    id parameter parses to n, once the select and the delete query are
    answered the delete route answers 200 with a message, and the table
    has lost every row of id n and no other, whatever the blob store
    answers to the deletions: after the two queries the trace holds, for
    each eligible url of the row in order, its [del], followed by a
    warning exactly when that [del] rejected, so a failed deletion is
    logged with the thrown message and the next url is still attempted.
    For n below 2^53 in magnitude the message is the success text with
    n in decimal, and n written in decimal is such a parameter. *)
Theorem delete_produtos_succeeds (env : Env) (n : Z) (param_id : string)
  (w : World) (x : Row) :
  In x (rows w) -> id x = n ->
  ParseInt.parseInt param_id = JInt n ->
  query_fault env (tick w) (SelectById (JInt n)) = None ->
  query_fault env (S (tick w)) (DeleteById (JInt n)) = None ->
  exists (r : Row) (found : list Row) (msg : string) (w' : World),
    filter (fun y => id y =? n) (rows w) = r :: found
    /\ delete_produtos env param_id w
       = (Ok (mkResponse 200 (JMessage msg)), w')
    /\ (Z.abs n < 2 ^ 53 ->
        msg = "Produto " ++ Number.toString (JInt n)
              ++ " excluído com sucesso."
        /\ ParseInt.parseInt (Number.toString (JInt n)) = JInt n)
    /\ rows w' = filter (fun y => negb (id y =? n)) (rows w)
    /\ (forall y, In y (rows w') -> id y <> n)
    /\ trace w'
       = (trace w
          ++ [EQuery (SelectById (JInt n)); EQuery (DeleteById (JInt n))]
          ++ cleanup_events env (S (S (tick w)))
               (urlsToDelete (imagem_url r) (pdf_url r)))%list
    /\ del_calls (trace w')
       = (del_calls (trace w)
          ++ urlsToDelete (imagem_url r) (pdf_url r))%list
    /\ (forall (k : nat) (url : string) (e : JsError),
          nth_error (urlsToDelete (imagem_url r) (pdf_url r)) k = Some url ->
          del_result env (k + S (S (tick w))) url = Throw e ->
          In (EConsoleWarn url (message e)) (trace w')).
Proof.
  intros Hin Hid Hparse Hsel Hdel.
  assert (Hx : In x (filter (Db.id_is (JInt n)) (rows w))).
  { apply filter_In. split; [exact Hin|]. cbn [Db.id_is].
    apply Z.eqb_eq, Hid. }
  pose proof (delete_by_id_run env (JInt n) w) as Hrun. cbv zeta in Hrun.
  rewrite Hsel in Hrun.
  destruct (filter (Db.id_is (JInt n)) (rows w)) as [|r found] eqn:Hf;
    [contradiction|].
  rewrite Hdel, delete_blobs_trace in Hrun. cbn [snd rows next_id tick trace] in Hrun.
  exists r, found,
    ("Produto " ++ Number.toString (JInt n) ++ " excluído com sucesso.").
  eexists. split; [exact Hf|].
  split; [unfold delete_produtos; rewrite Hparse; exact Hrun|].
  split; [intros Hn; split; [reflexivity | apply parseInt_toString_id, Hn]|].
  cbn [rows trace]. split; [reflexivity|]. split.
  { intros y Hy. apply filter_In in Hy. destruct Hy as [_ Hy].
    apply negb_true_iff in Hy. cbn [Db.id_is] in Hy.
    apply Z.eqb_neq, Hy. }
  split; [rewrite <- app_assoc; reflexivity|]. split.
  { rewrite !del_calls_app, cleanup_events_dels. cbn.
    rewrite app_nil_r. reflexivity. }
  intros k url e Hk He. apply in_or_app. right.
  apply (cleanup_events_warns env _ (S (S (tick w))) k url e Hk He).
Qed.

Lemma delete_produtos_succeeds_witness :
  let env := Sample.env (Sample.always true) (Sample.always false) in
  let urls :=
    urlsToDelete (imagem_url (Sample.row 12)) (pdf_url (Sample.row 12)) in
  (In (Sample.row 12) (rows Sample.world)
   /\ id (Sample.row 12) = 12
   /\ ParseInt.parseInt "12" = JInt 12
   /\ query_fault env (tick Sample.world) (SelectById (JInt 12)) = None
   /\ query_fault env (S (tick Sample.world)) (DeleteById (JInt 12)) = None)
  /\ exists (r : Row) (found : list Row) (msg : string) (w' : World),
       filter (fun y => id y =? 12) (rows Sample.world) = r :: found
       /\ delete_produtos env "12" Sample.world
          = (Ok (mkResponse 200 (JMessage msg)), w')
       /\ (Z.abs 12 < 2 ^ 53 ->
           msg = "Produto " ++ Number.toString (JInt 12)
                 ++ " excluído com sucesso."
           /\ ParseInt.parseInt (Number.toString (JInt 12)) = JInt 12)
       /\ rows w'
          = filter (fun y => negb (id y =? 12)) (rows Sample.world)
       /\ (forall y, In y (rows w') -> id y <> 12)
       /\ trace w'
          = (trace Sample.world
             ++ [EQuery (SelectById (JInt 12));
                 EQuery (DeleteById (JInt 12))]
             ++ cleanup_events env (S (S (tick Sample.world)))
                  (urlsToDelete (imagem_url r) (pdf_url r)))%list
       /\ del_calls (trace w')
          = (del_calls (trace Sample.world)
             ++ urlsToDelete (imagem_url r) (pdf_url r))%list
       /\ (forall (k : nat) (url : string) (e : JsError),
             nth_error (urlsToDelete (imagem_url r) (pdf_url r)) k
             = Some url ->
             del_result env (k + S (S (tick Sample.world))) url = Throw e ->
             In (EConsoleWarn url (message e)) (trace w')).
Proof.
  cbv zeta.
  split; [split; [right; left; reflexivity | repeat split]|].
  apply (delete_produtos_succeeds
           (Sample.env (Sample.always true) (Sample.always false))
           12 "12" Sample.world (Sample.row 12));
    [right; left; reflexivity | reflexivity ..].
Defined.

(** X12. Printing an integer id of magnitude below 2^53 in decimal, as
    the message of the delete route and a client's path do, and parsing
    the text with [parseInt] gives the id back: zero, positive and
    negative ids alike, with no digit lost and no prefix misread. *)
Theorem parseInt_toString_roundtrip (z : Z) :
  Z.abs z < 2 ^ 53 ->
  ParseInt.parseInt (Number.toString (JInt z)) = JInt z
  /\ (forall env w,
        delete_produtos env (Number.toString (JInt z)) w
        = delete_by_id env (JInt z) w).
Proof.
  intros Hz. pose proof (parseInt_toString_id z Hz) as H.
  split; [exact H|]. intros env w. unfold delete_produtos. rewrite H.
  reflexivity.
Qed.

Lemma parseInt_toString_roundtrip_witness :
  Z.abs (-9007199254740991) < 2 ^ 53
  /\ ParseInt.parseInt (Number.toString (JInt (-9007199254740991)))
     = JInt (-9007199254740991)
  /\ (forall env w,
        delete_produtos env (Number.toString (JInt (-9007199254740991))) w
        = delete_by_id env (JInt (-9007199254740991)) w).
Proof.
  assert (H : Z.abs (-9007199254740991) < 2 ^ 53) by reflexivity.
  split; [exact H|].
  apply (parseInt_toString_roundtrip (-9007199254740991) H).
Defined.

(* ------------------------------------------------------------------ *)
(** ** The table across requests *)

Section Table.

Lemma NoDup_map_filter {A B : Type} (g : A -> B) (f : A -> bool)
  (l : list A) :
  NoDup (map g l) -> NoDup (map g (filter f l)).
Proof.
  induction l as [|a l IH]; intros H; [constructor|].
  cbn [map] in H. inversion_clear H as [|? ? Hnot Hrest].
  cbn [filter]. destruct (f a); [|apply IH, Hrest].
  cbn [map]. constructor; [|apply IH, Hrest].
  intros Hin. apply Hnot. apply in_map_iff in Hin.
  destruct Hin as (x & Hx & Hin). apply filter_In in Hin.
  apply in_map_iff. exists x. split; [exact Hx | apply Hin].
Qed.

Lemma Forall_filter_keep {A : Type} (P : A -> Prop) (f : A -> bool)
  (l : list A) :
  Forall P l -> Forall P (filter f l).
Proof.
  intros H. apply Forall_forall. intros x Hx. apply filter_In in Hx.
  rewrite Forall_forall in H. apply H, Hx.
Qed.

Lemma consistent_filter (f : Row -> bool) (table : list Row)
  (next : Z) (t : nat) (tr tr' : list Event) :
  consistent (mkWorld table next t tr) ->
  consistent (mkWorld (filter f table) next t tr').
Proof.
  unfold consistent. cbn [rows next_id]. intros [Hn Hf].
  split; [apply NoDup_map_filter, Hn | apply Forall_filter_keep, Hf].
Qed.

Lemma consistent_insert (table : list Row) (r : Row) :
  NoDup (map id table) -> Forall (fun x => id x < id r) table ->
  NoDup (map id (table ++ [r]))
  /\ Forall (fun x => id x < id r + 1) (table ++ [r]).
Proof.
  intros Hn Hf. split.
  - rewrite map_app. cbn [map].
    apply (Permutation_NoDup (Permutation_cons_append (map id table) (id r))).
    constructor; [|exact Hn].
    intros Hin. apply in_map_iff in Hin.
    destruct Hin as (x & Hx & Hin).
    rewrite Forall_forall in Hf. specialize (Hf x Hin). lia.
  - apply Forall_app. split.
    + eapply Forall_impl; [|exact Hf]. cbv beta. intros x Hx. lia.
    + constructor; [lia | constructor].
Qed.

Lemma filter_all {A : Type} (f : A -> bool) (l : list A) :
  (forall x, In x l -> f x = true) -> filter f l = l.
Proof.
  induction l as [|a l IH]; intros H; [reflexivity|].
  cbn [filter]. rewrite (H a (or_introl eq_refl)). f_equal.
  apply IH. intros x Hx. apply H. right. exact Hx.
Qed.

(** A row of the greatest id goes to the front of the ordering. *)
Lemma order_by_id_desc_newest (table : list Row) (r : Row) :
  Forall (fun x => id x < id r) table ->
  Db.order_by_id_desc (table ++ [r]) = r :: Db.order_by_id_desc table.
Proof.
  induction table as [|x table IH]; intros H; [reflexivity|].
  inversion_clear H as [|? ? Hx Hrest].
  change ((x :: table) ++ [r])%list with (x :: (table ++ [r]))%list.
  cbn [Db.order_by_id_desc fold_right].
  fold (Db.order_by_id_desc (table ++ [r])).
  fold (Db.order_by_id_desc table).
  rewrite (IH Hrest). cbn [Db.insert_desc].
  destruct (Z.leb_spec (id r) (id x)) as [Hle|_]; [lia | reflexivity].
Qed.

Lemma get_produtos_run (env : Env) (w : World) :
  query_fault env (tick w) SelectAll = None ->
  get_produtos env w
  = (Ok (mkResponse 200
           (JProdutos (map formatar (Db.order_by_id_desc (rows w))))),
     mkWorld (rows w) (next_id w) (S (tick w))
       (trace w ++ [EQuery SelectAll])).
Proof.
  intros Hq. unfold get_produtos, try_catch, bind.
  rewrite query_run, Hq. reflexivity.
Qed.

Lemma get_produtos_frame (env : Env) (w : World) :
  rows (snd (get_produtos env w)) = rows w
  /\ next_id (snd (get_produtos env w)) = next_id w.
Proof.
  unfold get_produtos, try_catch, bind. rewrite !query_run.
  destruct (query_fault env (tick w) SelectAll); split; reflexivity.
Qed.

Lemma created_row (env : Env) (body : CreateBody) (w w1 : World)
  (p : Produto) :
  post_produtos env body w = (Ok (mkResponse 201 (JProduto p)), w1) ->
  exists r : Row,
    p = formatar r /\ id r = next_id w
    /\ rows w1 = (rows w ++ [r])%list /\ next_id w1 = next_id w + 1.
Proof.
  intros Hrun.
  destruct (post_produtos_cases env body w)
    as (resp & w' & Hrun' & _ & Hcases).
  rewrite Hrun in Hrun'. injection Hrun' as <- <-.
  destruct Hcases as [(_ & r & Hj & Hid & Hr & Hn) | ([Hs|Hs] & _)];
    [|discriminate Hs|discriminate Hs].
  exists r. cbn [json] in Hj. injection Hj as ->. auto.
Qed.

End Table.

(** X13. The three routes keep the table well formed: if the ids of the
    table are pairwise distinct and all below the id counter, they still
    are after any list, create or delete request, whatever the request
    holds and whatever the outside answers; a created product therefore
    never takes the id of an existing one. *)
Theorem routes_keep_ids_distinct (env : Env) (w : World) :
  consistent w ->
  consistent (snd (get_produtos env w))
  /\ (forall body, consistent (snd (post_produtos env body w)))
  /\ (forall param_id, consistent (snd (delete_produtos env param_id w))).
Proof.
  intros Hc. split; [|split].
  - destruct (get_produtos_frame env w) as [Hr Hn].
    unfold consistent. rewrite Hr, Hn. exact Hc.
  - intros body.
    destruct (post_produtos_cases env body w)
      as (resp & w' & Hrun & _ & Hcases).
    rewrite Hrun. cbn [snd]. unfold consistent in *.
    destruct Hc as [Hnd Hlt].
    destruct Hcases as [(_ & r & _ & Hid & Hr & Hn) | (_ & Hr & Hn)].
    + rewrite Hr, Hn, <- Hid. apply consistent_insert; [exact Hnd|].
      rewrite Hid. exact Hlt.
    + rewrite Hr, Hn. split; assumption.
  - intros param_id. unfold delete_produtos.
    destruct (delete_by_id_cases env (ParseInt.parseInt param_id) w)
      as (resp & w' & Hrun & Hn & _ & Hcases).
    rewrite Hrun. cbn [snd]. unfold consistent in *.
    destruct Hc as [Hnd Hlt].
    destruct Hcases as [(_ & Hr & _) | (_ & Hr & _)]; rewrite Hr, Hn.
    + split; [apply NoDup_map_filter, Hnd | apply Forall_filter_keep, Hlt].
    + split; assumption.
Qed.

Lemma routes_keep_ids_distinct_witness :
  let env := Sample.env (Sample.always true) (Sample.always true) in
  consistent Sample.world
  /\ consistent (snd (get_produtos env Sample.world))
  /\ (forall body, consistent (snd (post_produtos env body Sample.world)))
  /\ (forall param_id,
        consistent (snd (delete_produtos env param_id Sample.world))).
Proof.
  cbv zeta.
  assert (H : consistent Sample.world).
  { split.
    - cbn. repeat constructor; cbn; intuition discriminate.
    - cbn. repeat constructor. }
  split; [exact H|].
  apply (routes_keep_ids_distinct
           (Sample.env (Sample.always true) (Sample.always true))
           Sample.world H).
Defined.

(** X14. On a well-formed table, a product the create route has just
    answered with 201 is what the list route, its query answered,
    returns first, followed by the earlier products as they were listed
    before: one entry more, newest first. *)
Theorem created_product_listed_first (env : Env) (body : CreateBody)
  (w w1 : World) (p : Produto) :
  consistent w ->
  post_produtos env body w = (Ok (mkResponse 201 (JProduto p)), w1) ->
  query_fault env (tick w1) SelectAll = None ->
  fst (get_produtos env w1)
  = Ok (mkResponse 200
          (JProdutos (p :: map formatar (Db.order_by_id_desc (rows w))))).
Proof.
  intros [_ Hlt] Hrun Hq.
  destruct (created_row env body w w1 p Hrun) as (r & -> & Hid & Hr & _).
  rewrite (get_produtos_run env w1 Hq). cbn [fst]. rewrite Hr.
  rewrite order_by_id_desc_newest; [reflexivity|].
  rewrite Hid. exact Hlt.
Qed.

Lemma created_product_listed_first_witness :
  let env := Sample.env (Sample.always true) (Sample.always true) in
  let body := Sample.body "data:image/png;base64,iVBORw0KGgo=" in
  let p :=
    mkProduto 13 (Some "Widget")
      (Some (Sample.url_of "1700000000000-i3z07l9.png"))
      (Some (Sample.url_of "1700000000003-i3z07l9.pdf"))
      (Some "https://youtu.be/x") in
  let w1 := snd (post_produtos env body Sample.world) in
  (consistent Sample.world
   /\ post_produtos env body Sample.world
      = (Ok (mkResponse 201 (JProduto p)), w1)
   /\ query_fault env (tick w1) SelectAll = None)
  /\ fst (get_produtos env w1)
     = Ok (mkResponse 200
             (JProdutos
                (p :: map formatar
                        (Db.order_by_id_desc (rows Sample.world))))).
Proof.
  cbv zeta.
  assert (H : consistent Sample.world).
  { split.
    - cbn. repeat constructor; cbn; intuition discriminate.
    - cbn. repeat constructor. }
  split; [split; [exact H | split; reflexivity]|].
  apply (created_product_listed_first
           (Sample.env (Sample.always true) (Sample.always true))
           (Sample.body "data:image/png;base64,iVBORw0KGgo=")
           Sample.world
           (snd (post_produtos
                   (Sample.env (Sample.always true) (Sample.always true))
                   (Sample.body "data:image/png;base64,iVBORw0KGgo=")
                   Sample.world))
           (mkProduto 13 (Some "Widget")
              (Some (Sample.url_of "1700000000000-i3z07l9.png"))
              (Some (Sample.url_of "1700000000003-i3z07l9.pdf"))
              (Some "https://youtu.be/x"))
           H);
    reflexivity.
Defined.

(** X15. After the delete route has answered 200, the list route, its
    query answered, returns exactly the products that were in the table
    and do not have the deleted id: the deleted product is gone from the
    list and no other product is. *)
Theorem deleted_product_not_listed (env : Env) (param_id : string)
  (w w1 : World) (resp : Response) :
  delete_produtos env param_id w = (Ok resp, w1) ->
  status resp = 200 ->
  query_fault env (tick w1) SelectAll = None ->
  exists listed : list Row,
    fst (get_produtos env w1)
    = Ok (mkResponse 200 (JProdutos (map formatar listed)))
    /\ descending listed
    /\ (forall r : Row,
          In r listed
          <-> In r (rows w)
              /\ Db.id_is (ParseInt.parseInt param_id) r = false).
Proof.
  unfold delete_produtos. set (i := ParseInt.parseInt param_id).
  intros Hrun Hs Hq.
  destruct (delete_by_id_cases env i w)
    as (resp0 & w0 & Hrun0 & _ & _ & Hcases).
  rewrite Hrun in Hrun0. injection Hrun0 as <- <-.
  destruct Hcases as [(_ & Hr & _) | ([-> | ->] & _)];
    [|discriminate Hs|discriminate Hs].
  exists (Db.order_by_id_desc (rows w1)).
  split; [rewrite (get_produtos_run env w1 Hq); reflexivity|].
  split; [apply order_by_id_desc_sorted|].
  intros r. rewrite Hr. split.
  - intros Hin.
    apply (Permutation_in _ (order_by_id_desc_perm _)) in Hin.
    apply filter_In in Hin. destruct Hin as [Hin Hf].
    split; [exact Hin | apply negb_true_iff, Hf].
  - intros [Hin Hf].
    apply (Permutation_in _ (Permutation_sym (order_by_id_desc_perm _))).
    apply filter_In. split; [exact Hin | apply negb_true_iff, Hf].
Qed.

Lemma deleted_product_not_listed_witness :
  let env := Sample.env (Sample.always true) (Sample.always false) in
  let resp := Deleted (JInt 12) in
  let w1 := snd (delete_produtos env "12" Sample.world) in
  (delete_produtos env "12" Sample.world = (Ok resp, w1)
   /\ status resp = 200
   /\ query_fault env (tick w1) SelectAll = None)
  /\ exists listed : list Row,
       fst (get_produtos env w1)
       = Ok (mkResponse 200 (JProdutos (map formatar listed)))
       /\ descending listed
       /\ (forall r : Row,
             In r listed
             <-> In r (rows Sample.world)
                 /\ Db.id_is (ParseInt.parseInt "12") r = false).
Proof.
  cbv zeta. split; [repeat split|].
  apply (deleted_product_not_listed
           (Sample.env (Sample.always true) (Sample.always false))
           "12" Sample.world
           (snd (delete_produtos
                   (Sample.env (Sample.always true) (Sample.always false))
                   "12" Sample.world))
           (Deleted (JInt 12)));
    reflexivity.
Defined.

(** X16. On a well-formed table with the id counter below 2^53, a
    product the create route has just answered with 201 can be deleted
    by the id of that answer written in decimal: with the two queries
    answered the delete route answers 200 naming that id, the table is
    again what it was before the create, and [del] is attempted on the
    image and document URLs of the answer that start with [http]. *)
Theorem created_product_deletable (env : Env) (body : CreateBody)
  (w w1 : World) (p : Produto) :
  consistent w ->
  Z.abs (next_id w) < 2 ^ 53 ->
  post_produtos env body w = (Ok (mkResponse 201 (JProduto p)), w1) ->
  query_fault env (tick w1) (SelectById (JInt (p_id p))) = None ->
  query_fault env (S (tick w1)) (DeleteById (JInt (p_id p))) = None ->
  exists w2 : World,
    delete_produtos env (Number.toString (JInt (p_id p))) w1
    = (Ok (Deleted (JInt (p_id p))), w2)
    /\ rows w2 = rows w
    /\ del_calls (trace w2)
       = (del_calls (trace w1) ++ urlsToDelete (image p) (pdfDataUrl p))%list.
Proof.
  intros [_ Hlt] Hbound Hrun Hsel Hdel.
  destruct (created_row env body w w1 p Hrun) as (r & -> & Hid & Hr & _).
  cbn [formatar p_id image pdfDataUrl] in *.
  unfold delete_produtos. rewrite parseInt_toString_id by (rewrite Hid; lia).
  assert (Hold : forall x, In x (rows w) -> Db.id_is (JInt (id r)) x = false).
  { intros x Hx. rewrite Forall_forall in Hlt. specialize (Hlt x Hx).
    cbn [Db.id_is]. apply Z.eqb_neq. lia. }
  assert (Hfound : filter (Db.id_is (JInt (id r))) (rows w1) = [r]).
  { rewrite Hr, filter_app, (filter_none _ _ Hold). cbn [filter Db.id_is].
    rewrite Z.eqb_refl. reflexivity. }
  destruct (delete_by_id_existing env (JInt (id r)) w1 r [] Hsel Hdel Hfound)
    as (w2 & Hrun2 & Hr2 & Hd2 & _).
  exists w2. split; [exact Hrun2|]. split; [|exact Hd2].
  rewrite Hr2, Hr, filter_app. cbn [filter Db.id_is].
  rewrite Z.eqb_refl. cbn [negb]. rewrite app_nil_r.
  apply filter_all. intros x Hx. specialize (Hold x Hx).
  cbn [Db.id_is] in Hold. cbv beta. rewrite Hold. reflexivity.
Qed.

Lemma created_product_deletable_witness :
  let env := Sample.env (Sample.always true) (Sample.always true) in
  let body := Sample.body "data:image/png;base64,iVBORw0KGgo=" in
  let p :=
    mkProduto 13 (Some "Widget")
      (Some (Sample.url_of "1700000000000-i3z07l9.png"))
      (Some (Sample.url_of "1700000000003-i3z07l9.pdf"))
      (Some "https://youtu.be/x") in
  let w1 := snd (post_produtos env body Sample.world) in
  (consistent Sample.world
   /\ Z.abs (next_id Sample.world) < 2 ^ 53
   /\ post_produtos env body Sample.world
      = (Ok (mkResponse 201 (JProduto p)), w1)
   /\ query_fault env (tick w1) (SelectById (JInt (p_id p))) = None
   /\ query_fault env (S (tick w1)) (DeleteById (JInt (p_id p))) = None)
  /\ exists w2 : World,
       delete_produtos env (Number.toString (JInt (p_id p))) w1
       = (Ok (Deleted (JInt (p_id p))), w2)
       /\ rows w2 = rows Sample.world
       /\ del_calls (trace w2)
          = (del_calls (trace w1)
             ++ urlsToDelete (image p) (pdfDataUrl p))%list.
Proof.
  cbv zeta.
  assert (H : consistent Sample.world).
  { split.
    - cbn. repeat constructor; cbn; intuition discriminate.
    - cbn. repeat constructor. }
  split; [split; [exact H | repeat split]|].
  apply (created_product_deletable
           (Sample.env (Sample.always true) (Sample.always true))
           (Sample.body "data:image/png;base64,iVBORw0KGgo=")
           Sample.world
           (snd (post_produtos
                   (Sample.env (Sample.always true) (Sample.always true))
                   (Sample.body "data:image/png;base64,iVBORw0KGgo=")
                   Sample.world))
           (mkProduto 13 (Some "Widget")
              (Some (Sample.url_of "1700000000000-i3z07l9.png"))
              (Some (Sample.url_of "1700000000003-i3z07l9.pdf"))
              (Some "https://youtu.be/x"))
           H);
    reflexivity.
Defined.

(* ------------------------------------------------------------------ *)
(** ** What the decoder hands on *)

Section Decoder.

Lemma first_occurrence (sep s : string) :
  JsString.occurrences sep s <> 0%nat ->
  exists a b, s = a ++ sep ++ b.
Proof.
  induction s as [|x s IH]; intros H; [contradiction H; reflexivity|].
  cbn [JsString.occurrences] in H.
  destruct (String.prefix sep (String x s)) eqn:E.
  - destruct (prefix_split _ _ E) as [b Hb]. exists "", b. exact Hb.
  - destruct (IH H) as (a & b & ->). exists (String x a), b. reflexivity.
Qed.

Lemma split_from_cons (sep : string) (s : string) :
  forall (k : nat) (cur : string),
  exists x l, JsString.split_from sep k cur s = x :: l.
Proof.
  induction s as [|c s IH]; intros k cur; [do 2 eexists; reflexivity|].
  cbn [JsString.split_from]. destruct k as [|k]; [|apply IH].
  destruct (String.prefix sep (String c s)); [do 2 eexists; reflexivity|].
  apply IH.
Qed.

Lemma header_has_scheme (a r : string) :
  String.prefix "data:" (a ++ String ";" r) = true ->
  exists rest, a = "data:" ++ rest.
Proof.
  intros H.
  destruct a as [|c1 [|c2 [|c3 [|c4 [|c5 rest]]]]];
    cbn [append String.prefix] in H;
    repeat match type of H with
           | match ascii_dec ?x ?y with _ => _ end = true =>
               destruct (ascii_dec x y) as [<-|]; [|discriminate H]
           end;
    try discriminate H.
  exists rest. reflexivity.
Qed.

End Decoder.

(** X17. A payload that passes the format check is cut in exactly two
    pieces which, put back around the delimiter, give the payload again;
    the first piece starts with [data:], and the declared type read from
    it is always defined (never [undefined]), so [put] always gets a
    string as content type. *)
Theorem checkFormat_parts (s : string) (parts : list string) :
  checkFormat (VStr s) = Ok parts ->
  exists header body mime,
    parts = [header; body]
    /\ s = header ++ ";base64," ++ body
    /\ JsString.startsWith "data:" header = true
    /\ mimeTypeOf parts = Some mime.
Proof.
  rewrite checkFormat_string.
  destruct (JsString.startsWith "data:" s) eqn:Hp; [|discriminate].
  destruct (Nat.eqb_spec (JsString.occurrences ";base64," s) 1) as [E|E];
    [|discriminate].
  intros H. injection H as <-.
  destruct (first_occurrence ";base64," s) as (a & b & ->);
    [rewrite E; discriminate|].
  unfold JsString.split.
  rewrite (split_once ";" "base64," a b eq_refl "" E).
  change ("" ++ a) with a.
  destruct (header_has_scheme a ("base64," ++ b) Hp) as [rest ->].
  unfold mimeTypeOf. cbn [nth]. unfold JsString.split.
  change ("data:" ++ rest) with ("data" ++ String ":" rest).
  rewrite (split_char_first ":" "data" rest eq_refl "").
  destruct (split_from_cons ":" rest 0 "") as (mime & l & Hs).
  rewrite Hs. exists ("data:" ++ rest), b, mime.
  split; [reflexivity|]. split; [reflexivity|].
  split; [apply prefix_app | reflexivity].
Qed.

Lemma checkFormat_parts_witness :
  let s := "data:image/png:x;base64,iVBORw0KGgo=" in
  let parts := ["data:image/png:x"; "iVBORw0KGgo="] in
  checkFormat (VStr s) = Ok parts
  /\ exists header body mime,
       parts = [header; body]
       /\ s = header ++ ";base64," ++ body
       /\ JsString.startsWith "data:" header = true
       /\ mimeTypeOf parts = Some mime.
Proof.
  cbv zeta. split; [reflexivity|].
  apply (checkFormat_parts "data:image/png:x;base64,iVBORw0KGgo="
           ["data:image/png:x"; "iVBORw0KGgo="]).
  reflexivity.
Defined.

(* ------------------------------------------------------------------ *)
(** ** The extension and the declared type *)

Lemma inherited_not_string (key : string) (v : ObjectLiteral.PropValue) :
  ObjectLiteral.assoc key ObjectLiteral.Object_prototype = Some v ->
  ObjectLiteral.truthy v = true /\ forall s, v <> ObjectLiteral.PString s.
Proof.
  unfold ObjectLiteral.Object_prototype. cbn [ObjectLiteral.assoc].
  repeat match goal with
         | |- (if String.eqb ?k ?x then _ else _) = _ -> _ =>
             destruct (String.eqb k x);
             [intros H; injection H as <-; split; [reflexivity | discriminate]|]
         end.
  discriminate.
Qed.

(** X18. The extension tells the declared type: it is [png], [jpg],
    [pdf] or [svg] exactly for [image/png], [image/jpeg],
    [application/pdf] and [image/svg+xml] respectively, and it is [bin]
    exactly for the types that are neither in the table nor the name of
    a property every object inherits. *)
Theorem extensao_designates_type (mime : string) :
  (extensao (Some mime) = ObjectLiteral.PString "png"
   <-> mime = "image/png")
  /\ (extensao (Some mime) = ObjectLiteral.PString "jpg"
      <-> mime = "image/jpeg")
  /\ (extensao (Some mime) = ObjectLiteral.PString "pdf"
      <-> mime = "application/pdf")
  /\ (extensao (Some mime) = ObjectLiteral.PString "svg"
      <-> mime = "image/svg+xml")
  /\ (extensao (Some mime) = ObjectLiteral.PString "bin"
      <-> ObjectLiteral.assoc mime extensaoMapeada = None
          /\ ObjectLiteral.assoc mime ObjectLiteral.Object_prototype = None).
Proof.
  unfold extensao, ObjectLiteral.get, extensaoMapeada.
  cbn [ObjectLiteral.propertyKey ObjectLiteral.assoc].
  destruct (String.eqb_spec mime "image/png") as [->|N1];
    [repeat split; (reflexivity || discriminate || (intros [H _]; discriminate H))|].
  destruct (String.eqb_spec mime "image/jpeg") as [->|N2];
    [repeat split; (reflexivity || discriminate || (intros [H _]; discriminate H))|].
  destruct (String.eqb_spec mime "application/pdf") as [->|N3];
    [repeat split; (reflexivity || discriminate || (intros [H _]; discriminate H))|].
  destruct (String.eqb_spec mime "image/svg+xml") as [->|N4];
    [repeat split; (reflexivity || discriminate || (intros [H _]; discriminate H))|].
  destruct (ObjectLiteral.assoc mime ObjectLiteral.Object_prototype)
    as [v|] eqn:Hv.
  - destruct (inherited_not_string mime v Hv) as [Ht Hns]. rewrite Ht.
    (split; [|split; [|split; [|split]]]); split; intros X;
      try (exfalso; apply (Hns _ X)); try contradiction;
      try discriminate X.
    destruct X as [_ X]. discriminate X.
  - (split; [|split; [|split; [|split]]]); split; intros X;
      try discriminate X; try contradiction; auto.
Qed.

(* ------------------------------------------------------------------ *)
(** ** The decoded buffer *)

Section Buffer.

Local Open Scope N_scope.

Lemma land_255_byte (x : N) : Buffer.isByte (N.land x 255).
Proof.
  unfold Buffer.isByte. change 255 with (N.ones 8).
  rewrite N.land_ones. apply N.mod_lt. discriminate.
Qed.

Lemma list_ind4 {A : Type} (P : list A -> Prop) :
  P [] -> (forall a, P [a]) -> (forall a b, P [a; b]) ->
  (forall a b c, P [a; b; c]) ->
  (forall a b c d r, P r -> P (a :: b :: c :: d :: r)) ->
  forall l, P l.
Proof.
  intros H0 H1 H2 H3 H4. fix IH 1.
  intros [|a [|b [|c [|d r]]]];
    [exact H0 | apply H1 | apply H2 | apply H3 |].
  apply H4, IH.
Qed.

Lemma pack_bytes (l : list N) :
  Forall Buffer.isByte (Buffer.pack l)
  /\ (4 * List.length (Buffer.pack l) <= 3 * List.length l)%nat.
Proof.
  induction l as [| a | a b | a b c | a b c d r IH] using list_ind4;
    cbn [Buffer.pack List.length].
  - split; [constructor | lia].
  - split; [constructor | lia].
  - split; [|lia]. repeat constructor. apply land_255_byte.
  - split; [|lia]. repeat constructor; apply land_255_byte.
  - destruct IH as [IHb IHl]. split; [|lia].
    repeat (constructor; [apply land_255_byte|]). exact IHb.
Qed.

Lemma sextets_length (s : string) :
  (List.length (Buffer.sextets s) <= String.length s)%nat.
Proof.
  induction s as [|c s IH]; [apply Nat.le_refl|].
  cbn [Buffer.sextets String.length].
  destruct (Ascii.eqb c "="); [cbn; lia|].
  destruct (Buffer.unbase64 c); cbn [List.length]; lia.
Qed.

End Buffer.

(** X19. Whatever text stands as the body of a payload, the buffer
    decoded from it holds only bytes (values below 256) and at most
    three bytes for every four characters of the body. *)
Theorem from_base64_bytes (body : string) :
  Forall Buffer.isByte (Buffer.from_base64 body)
  /\ (4 * List.length (Buffer.from_base64 body)
      <= 3 * String.length body)%nat.
Proof.
  unfold Buffer.from_base64.
  destruct (pack_bytes (Buffer.sextets body)) as [Hb Hl].
  pose proof (sextets_length body). split; [exact Hb | lia].
Qed.

(* ------------------------------------------------------------------ *)
(** ** The token of the object key *)

Lemma digit36_lowerAlnum (d : N) :
  (d < 36)%N -> lowerAlnum (Number.digit36 d) = true.
Proof.
  intros Hd.
  apply (all_below_spec 36 (fun d => lowerAlnum (Number.digit36 d)));
    [vm_compute; reflexivity | exact Hd].
Qed.

Lemma digits36_lowerAlnum (l : list N) :
  Forall (fun d => (d < 36)%N) l ->
  allLowerAlnum (Number.digits36 l) = true.
Proof.
  induction 1 as [|d l Hd _ IH]; [reflexivity|].
  cbn [Number.digits36 allLowerAlnum].
  rewrite (digit36_lowerAlnum d Hd), IH. reflexivity.
Qed.

Lemma Forall_firstn_keep {A : Type} (P : A -> Prop) (n : nat) (l : list A) :
  Forall P l -> Forall P (firstn n l).
Proof.
  intros H. revert n. induction H as [|a l Ha _ IH]; intros [|n];
    cbn [firstn]; constructor; [exact Ha | apply IH].
Qed.

(** X20. When the draw is given by radix-36 digits (each below 36), the
    token of the object key is made of the characters 0-9 and a-z only:
    it holds no dash, dot or slash that could be confused with the
    separators of the key. *)
Theorem token_characters (draw : list N) :
  Forall (fun d => (d < 36)%N) draw ->
  allLowerAlnum (token draw) = true
  /\ JsString.mem "-" (token draw) = false
  /\ JsString.mem "." (token draw) = false
  /\ JsString.mem "/" (token draw) = false.
Proof.
  intros H. rewrite token_digits.
  pose proof (digits36_lowerAlnum _ (Forall_firstn_keep _ 7 draw H)) as Ha.
  split; [exact Ha|].
  generalize dependent (Number.digits36 (firstn 7 draw)).
  intros s Hs.
  assert (Hmem : forall c, lowerAlnum c = false -> JsString.mem c s = false).
  { intros c Hc. induction s as [|x s IH]; [reflexivity|].
    cbn [allLowerAlnum] in Hs. apply andb_true_iff in Hs.
    destruct Hs as [Hx Hs]. cbn [JsString.mem]. rewrite (IH Hs).
    destruct (Ascii.eqb_spec c x) as [->|_]; [congruence | reflexivity]. }
  repeat split; apply Hmem; reflexivity.
Qed.

Lemma token_characters_witness :
  let draw := [18; 3; 35; 0; 7; 21; 9; 30; 2]%N in
  Forall (fun d => (d < 36)%N) draw
  /\ allLowerAlnum (token draw) = true
  /\ JsString.mem "-" (token draw) = false
  /\ JsString.mem "." (token draw) = false
  /\ JsString.mem "/" (token draw) = false.
Proof.
  cbv zeta.
  assert (H : Forall (fun d => (d < 36)%N) [18; 3; 35; 0; 7; 21; 9; 30; 2]%N).
  { repeat constructor. }
  split; [exact H|].
  apply (token_characters [18; 3; 35; 0; 7; 21; 9; 30; 2]%N H).
Defined.

(* ------------------------------------------------------------------ *)
(** ** Id parameters that are not numbers *)

(** X21. An id parameter that, after white space and an optional sign,
    does not start with a decimal digit (the empty text, a word, a lone
    sign) is parsed as [NaN]; with the select answered the delete route
    then answers 404, having made that one query and nothing else. *)
Theorem delete_produtos_not_a_number (env : Env) (param_id : string)
  (w : World) :
  LeadingDecimal.read param_id = None ->
  query_fault env (tick w) (SelectById JNaN) = None ->
  ParseInt.parseInt param_id = JNaN
  /\ delete_produtos env param_id w
     = (Ok NotFound,
        mkWorld (rows w) (next_id w) (S (tick w))
          (trace w ++ [EQuery (SelectById JNaN)])).
Proof.
  intros Hread Hsel.
  assert (Hd : LeadingDecimal.digits (LeadingDecimal.unsignedPart param_id)
               = []).
  { unfold LeadingDecimal.read in Hread.
    destruct (LeadingDecimal.digits (LeadingDecimal.unsignedPart param_id));
      [reflexivity | discriminate Hread]. }
  assert (Hhex : ParseInt.hexPrefixed (LeadingDecimal.unsignedPart param_id)
                 = false).
  { destruct (LeadingDecimal.unsignedPart param_id) as [|c s];
      [reflexivity|].
    cbn [LeadingDecimal.digits] in Hd.
    unfold ParseInt.hexPrefixed, JsString.startsWith. cbn [String.prefix].
    destruct (ascii_dec "0" c) as [<-|_]; [discriminate Hd | reflexivity]. }
  assert (Hparse : ParseInt.parseInt param_id = JNaN).
  { rewrite (parseInt_decimal param_id Hhex), Hd. reflexivity. }
  split; [exact Hparse|].
  unfold delete_produtos. rewrite Hparse.
  pose proof (delete_by_id_run env JNaN w) as Hrun. cbv zeta in Hrun.
  rewrite Hsel in Hrun.
  rewrite (filter_none (Db.id_is JNaN) (rows w)) in Hrun by reflexivity.
  exact Hrun.
Qed.

Lemma delete_produtos_not_a_number_witness :
  let env := Sample.env (Sample.always true) (Sample.always true) in
  (LeadingDecimal.read " -abc" = None
   /\ query_fault env (tick Sample.world) (SelectById JNaN) = None)
  /\ ParseInt.parseInt " -abc" = JNaN
  /\ delete_produtos env " -abc" Sample.world
     = (Ok NotFound,
        mkWorld (rows Sample.world) (next_id Sample.world)
          (S (tick Sample.world))
          (trace Sample.world ++ [EQuery (SelectById JNaN)])).
Proof.
  cbv zeta. split; [split; reflexivity|].
  apply (delete_produtos_not_a_number
           (Sample.env (Sample.always true) (Sample.always true))
           " -abc" Sample.world);
    reflexivity.
Defined.

(* ------------------------------------------------------------------ *)
(** ** The clock in the object key *)

Section KeyTime.

Lemma digits_before_dash (d : Decimal.uint) (rest : string) :
  LeadingDecimal.digits (NilEmpty.string_of_uint d ++ String "-" rest)
  = uint_digits d.
Proof.
  induction d; cbn [NilEmpty.string_of_uint uint_digits append];
    [reflexivity | ..];
    cbn [LeadingDecimal.digits]; rewrite IHd; reflexivity.
Qed.

Lemma numeral_unsigned (d : Decimal.uint) (r : string) :
  uint_digits d <> [] ->
  ParseInt.trimStart (NilEmpty.string_of_uint d ++ r)
  = NilEmpty.string_of_uint d ++ r
  /\ ParseInt.dropSign (NilEmpty.string_of_uint d ++ r)
     = (false, NilEmpty.string_of_uint d ++ r).
Proof.
  intros H. destruct d; [contradiction H; reflexivity | ..];
    split; reflexivity.
Qed.

(** The leading number of a text that starts with a printed integer and
    a dash is that integer. *)
Lemma read_printed (z : Z) (rest : string) :
  LeadingDecimal.read (Number.toString (JInt z) ++ String "-" rest)
  = Some z.
Proof.
  destruct z as [|p|p]; [reflexivity | |];
    cbn [Number.toString Z.to_int NilZero.string_of_int];
    destruct (to_uint_digits p) as (Hs & Hne & Hv); rewrite Hs;
    destruct (numeral_unsigned (Pos.to_uint p) (String "-" rest) Hne)
      as [Ht Hd];
    unfold LeadingDecimal.read, LeadingDecimal.unsignedPart,
      LeadingDecimal.negative.
  - rewrite Ht, Hd. cbn [fst snd]. rewrite digits_before_dash.
    destruct (uint_digits (Pos.to_uint p)); [contradiction|].
    rewrite Hv. reflexivity.
  - change (ParseInt.trimStart
              (String "-" (NilEmpty.string_of_uint (Pos.to_uint p))
               ++ String "-" rest))
      with (String "-"
              (NilEmpty.string_of_uint (Pos.to_uint p) ++ String "-" rest)).
    cbn [ParseInt.dropSign fst snd]. rewrite digits_before_dash.
    destruct (uint_digits (Pos.to_uint p)); [contradiction|].
    rewrite Hv. reflexivity.
Qed.

End KeyTime.

(** X22. The object key starts with the clock reading it was made at,
    which can be read back from it; so two keys synthesized at different
    clock readings are different, whatever the random draws and the
    extensions: only uploads within the same millisecond can collide. *)
Theorem NomeArquivo_time (now : Z) (draw : list N)
  (ext : ObjectLiteral.PropValue) :
  LeadingDecimal.read (NomeArquivo now draw ext) = Some now
  /\ forall (now' : Z) (draw' : list N) (ext' : ObjectLiteral.PropValue),
       NomeArquivo now draw ext = NomeArquivo now' draw' ext' ->
       now = now'.
Proof.
  assert (H : forall n d e,
            LeadingDecimal.read (NomeArquivo n d e) = Some n).
  { intros n d e. unfold NomeArquivo.
    change ("-" ++ token d ++ "." ++ ObjectLiteral.toString e)
      with (String "-" (token d ++ "." ++ ObjectLiteral.toString e)).
    apply read_printed. }
  split; [apply H|].
  intros now' draw' ext' E.
  pose proof (H now draw ext) as H1. rewrite E, H in H1.
  injection H1 as ->. reflexivity.
Qed.

(* ------------------------------------------------------------------ *)
(** ** The image left behind *)

(** X23. With the four fields present, when the image upload resolved
    and the document payload is not a string of the decoder's shape,
    the create route answers the 500 error after exactly one [put], that
    of the image: no second [put], no query, no row, and no [del] to
    take the stored image back. *)
Theorem post_produtos_orphans_image (env : Env) (body : CreateBody)
  (w w1 : World) (url : string) :
  truthy (body_nome body) = true -> truthy (body_imagem body) = true ->
  truthy (body_pdfDataUrl body) = true ->
  truthy (body_youtubeLink body) = true ->
  uploadBase64ToStorage env (body_imagem body) w = (Ok url, w1) ->
  (forall s, body_pdfDataUrl body = VStr s -> ~ wellFormed s) ->
  exists (e : JsError) (key : string),
    post_produtos env body w
    = (Ok UploadFailed, logged "Erro no cadastro ou upload:" e w1)
    /\ put_calls (trace (logged "Erro no cadastro ou upload:" e w1))
       = (put_calls (trace w) ++ [key])%list
    /\ db_calls (trace (logged "Erro no cadastro ou upload:" e w1))
       = db_calls (trace w)
    /\ del_calls (trace (logged "Erro no cadastro ou upload:" e w1))
       = del_calls (trace w)
    /\ rows w1 = rows w.
Proof.
  intros Hn Hi Hp Hy H1 Hill.
  destruct (checkFormat_ill_formed (body_pdfDataUrl body) Hill) as [e He].
  destruct (upload_ok_put env _ w w1 url H1)
    as (key & bytes & mime & T1 & R1 & _).
  exists e, key. split.
  - rewrite (post_produtos_run env body w Hn Hi Hp Hy), H1.
    unfold uploadBase64ToStorage at 1. unfold bind at 1. unfold lift at 1.
    rewrite He. reflexivity.
  - unfold logged. cbn [trace]. rewrite T1.
    rewrite !put_calls_app, !db_calls_app, !del_calls_app. cbn.
    rewrite !app_nil_r. repeat split. exact R1.
Qed.

Lemma post_produtos_orphans_image_witness :
  let env := Sample.env (Sample.always true) (Sample.always true) in
  let body :=
    mkCreateBody (VStr "Widget") (VStr "data:image/png;base64,iVBORw0KGgo=")
      (VStr "JVBERi0=") (VStr "https://youtu.be/x") in
  let url := Sample.url_of "1700000000000-i3z07l9.png" in
  let w1 := snd (uploadBase64ToStorage env (body_imagem body) Sample.world) in
  (uploadBase64ToStorage env (body_imagem body) Sample.world = (Ok url, w1)
   /\ (forall s, body_pdfDataUrl body = VStr s -> ~ wellFormed s))
  /\ exists (e : JsError) (key : string),
       post_produtos env body Sample.world
       = (Ok UploadFailed, logged "Erro no cadastro ou upload:" e w1)
       /\ put_calls (trace (logged "Erro no cadastro ou upload:" e w1))
          = (put_calls (trace Sample.world) ++ [key])%list
       /\ db_calls (trace (logged "Erro no cadastro ou upload:" e w1))
          = db_calls (trace Sample.world)
       /\ del_calls (trace (logged "Erro no cadastro ou upload:" e w1))
          = del_calls (trace Sample.world)
       /\ rows w1 = rows Sample.world.
Proof.
  cbv zeta.
  assert (H : forall s, VStr "JVBERi0=" = VStr s -> ~ wellFormed s).
  { intros s Hs. injection Hs as <-. intros [Hp _]. discriminate Hp. }
  split; [split; [reflexivity | exact H]|].
  apply (post_produtos_orphans_image
           (Sample.env (Sample.always true) (Sample.always true))
           (mkCreateBody (VStr "Widget")
              (VStr "data:image/png;base64,iVBORw0KGgo=")
              (VStr "JVBERi0=") (VStr "https://youtu.be/x"))
           Sample.world
           (snd (uploadBase64ToStorage
                   (Sample.env (Sample.always true) (Sample.always true))
                   (VStr "data:image/png;base64,iVBORw0KGgo=")
                   Sample.world))
           (Sample.url_of "1700000000000-i3z07l9.png"));
    try reflexivity.
  exact H.
Defined.
